(* ===== verification/_CoqProject ===== *)
-Q . S2P
Prelude.v
JsValue.v
Json.v
Executor.v
RetrySpec.v
Normalizer.v
Dom.v
Factors.v
Timers.v
Research.v
Share.v
Details.v
Modal.v
