(* ===== verification/Prelude.v ===== *)
(** * Psych-Factors-Database: a verification development of [src/index.js]

    The repository is one browser script, [src/index.js], with three parts:

    - (A) the internal database: a static table [sourceData] of
      social-engineering factors and percentages, sorted by name at start-up
      ([initializeInternalApp]), listed in a drop-down ([populateDropdown]),
      and looked up when the selection changes ([findPercentage]);
    - (B) live web research: [handleSearch] trims the query, resets the
      page, calls [callGeminiAPI] (payload, a retry loop around [fetch] with
      a doubling delay, then [processApiResponse], which selects the first
      candidate, detects blocked or malformed answers and extracts the
      summary text and the grounded sources), and renders the answer
      ([displayResults]) or an error ([showError]); [shareResults] builds a
      text report of an answer;
    - (C) the "Learn More" modal: [handleLearnMore] opens the modal, calls
      [callGeminiForDetails] (the same retry loop, then [JSON.parse] of the
      first candidate's text) and renders definition, example and defence
      tips, or an error.

    Both API callers contain the same retry loop, written out twice in the
    source; the development models the loop once, as a function of the
    part that differs (what happens to the parsed body), and instantiates it
    for both callers.

    ** Files (in dependency order)

    - [Prelude]      notations ([psych_scope]), the tactics [invc],
                     [case_tests], [cmp_lia], the hint databases [psych] and
                     [psych_rw], generic lemmas on lists, strings and Z.
    - [JsValue]      the JavaScript values a JSON body can hold ([jsval]),
                     thrown exceptions, the completion monad (normal result
                     or throw, with stdpp's [≫=] notation), property access
                     with and without [?.] ([get], [oget]: a TypeError on
                     null or undefined, as the engine throws it), truthiness,
                     [||], [Array.prototype.map], [String()], [trim], and
                     [substring(0, n)] and [length] in UTF-16 code units.
    - [Json]         the interface [JsonBuiltins] ([JSON.parse],
                     [JSON.stringify]) the components are proved against,
                     and an RFC 8259 implementation [JsonImpl] (a parser
                     with fuel [2 * length + 1], enough since every call
                     consumes a character or descends once) used to run the
                     concrete examples.
    - [Executor]     the retry loop (lines 165-195 and 485-522), [Module
                     RetryLoop]: state [loop_state] (retries, delay, attempts
                     made, trace of [EvFetch]/[EvWarn]/[EvSleep] events), one
                     iteration per fuel unit; [retry_fuel] = retries + 1 is
                     enough (the fall-through and out-of-fuel results are
                     proved unreachable).  A reference [window] (the first
                     attempt that does not throw) and the theorems C1-C7
                     and C9.
    - [RetrySpec]    the spec's state machine (Attempting, BackingOff,
                     Succeeded, FailedTerminal) as a labelled step relation,
                     and the refinement of the machine by the loop: every
                     run of the loop ends in a final state, reached by a
                     complete run of the machine with the loop's trace (C8).
    - [Normalizer]   [processApiResponse] (lines 199-226) in the completion
                     monad, C10-C14.
    - [Dom]          the page as a [gmap] from element id to [element]
                     (classes, text, HTML, children, [onclick], [value],
                     [disabled], [options]); every update is an [alter];
                     read-through-update lemmas in [psych_rw], [page_simpl].
    - [Factors]      the table [sourceData], the in-place sort of
                     [initializeInternalApp] ([Array.prototype.sort] as a
                     stable insertion sort, [localeCompare] as the root
                     collation on ASCII), [populateDropdown] and
                     [findPercentage] (lines 5-82), C30-C34.
    - [Timers]       the browser's timer queue: the page with the current
                     time and the pending [setTimeout] callbacks; [advance]
                     runs the callbacks that fall due in due-time order.
    - [Research]     [callGeminiAPI] (payload, the loop instantiated with
                     [processApiResponse]), the view helpers, and
                     [handleSearch] split at its [await] into
                     [handleSearch_start] and [handleSearch_finish] so that
                     two searches can interleave (C15-C20).
    - [Share]        [shareResults] and [copyToClipboard] (lines 288-328),
                     with the browser given by what the code asks of it
                     (C35-C37).
    - [Details]      [callGeminiForDetails] (the loop instantiated with
                     [JSON.parse] of the candidate text), [openModal] and
                     [handleLearnMore] (lines 377-523), C21-C27.
    - [Modal]        [openModal] and [closeModal] with their timers, and a
                     replay of user events (close, Learn More, wait, the
                     answer arriving) on the clock of [Timers] (C28-C29).

    ** How the parts interact

    A handler is a function from the page (and the network's answers,
    [net : nat -> fetch_outcome], the answer to the n-th fetch) to the new
    page and the trace of the requests.  An [async] handler is split at its
    [await]: the part before runs when the event fires, the part after
    when the call's promise settles, so an interleaving is an explicit
    composition of the two parts.  The callers are proved against the
    retry loop's theorems and against the class [JsonBuiltins]; the
    concrete examples use [json_builtins_impl].

    ** What the theorems show

    - C1-C9: the loop equals its reference, makes one to three attempts,
      one fetch each, sleeps 1000 then 2000 ms, always returns or rethrows,
      retries client errors, refines the spec's state machine, and after
      three transient statuses rethrows the last server error.
    - C10-C14: the sources kept are truthy, safety/recitation and missing
      candidates raise the errors of the code, and a null attribution
      fails the whole answer.
    - C15-C20 and C21-C27: the two handlers on every branch: blank query,
      exclusive error/results, no results, retried rejections, stale
      results of interleaved searches, rendering; the details call ignores
      safety blocks, renders unescaped HTML and "undefined" for a missing
      field, and fetches even for "default".
    - C28-C29: the modal reopened within 250 ms of a close is hidden by the
      close's timer; later it stays open.
    - C30-C34: the factor lookup, its default branch, every option of the
      filled selector showing its row's percentage, the sort's irrelevance
      to the lookup, and the selector listing the table in [localeCompare]
      order after "Select a factor...".
    - C35-C37: the share report reads the search box at click time, the
      copy notification ignores the result of the copy, and the shared
      snippet's text (200 UTF-16 code units, then "...").

    ** Not modelled

    The registration of listeners ([addEventListener], DOMContentLoaded),
    [console.error]/[console.log], CSS animation classes other than those
    the timers set, the promise of [navigator.share], the exact text of
    the engine's SyntaxError messages, and the Unicode white space of
    [trim] beyond the ASCII tab, line breaks and space.  Strings are their
    bytes in generalized UTF-8; [substring] and [length] count UTF-16 code
    units over them ([JsValue]).  Numbers are exact rationals ([Q]): the code
    only compares status codes and prints integers and 0.5.
*)

From stdpp Require Export base list strings options.
From Stdlib Require Export ZArith Lia.

Declare Scope psych_scope.
Delimit Scope psych_scope with psych.
Open Scope psych_scope.

Create HintDb psych discriminated.
Create Rewrite HintDb psych_rw.

(** A JavaScript template literal [`${a}${b}`] is string concatenation. *)
Notation "a +s+ b" := (String.append a b)
  (at level 60, right associativity) : psych_scope.

(** ** Tactics shared by the development *)

Ltac invc H := inversion H; subst; clear H.

(** Split every [match] on a boolean test or an option in the goal. *)
Ltac case_tests :=
  repeat match goal with
  | |- context [if ?b then _ else _] =>
      let E := fresh "E" in destruct b eqn:E
  | |- context [match ?o with Some _ => _ | None => _ end] =>
      let E := fresh "E" in destruct o eqn:E
  end.

(** Prove [b = true] or [b = false] for a boolean comparison on [Z] or
    [nat] by [lia]. *)
Ltac cmp_lia_core :=
  first
    [ apply Z.ltb_lt | apply Z.ltb_ge | apply Z.leb_le | apply Z.leb_gt
    | apply Z.eqb_eq | apply Z.eqb_neq
    | apply Nat.ltb_lt | apply Nat.ltb_ge | apply Nat.leb_le | apply Nat.leb_gt
    | apply Nat.eqb_eq | apply Nat.eqb_neq ];
  lia.
Ltac cmp_lia := first [cmp_lia_core | symmetry; cmp_lia_core].

(** ** Generic lemmas on lists *)

Lemma forallb_filter {A} (p q : A -> bool) (l : list A) :
  (forall x, p x = true -> q x = true) ->
  forallb q (List.filter p l) = true.
Proof.
  intros Hpq. induction l as [|x l IH]; simpl; [done|].
  destruct (p x) eqn:Hp; simpl; [|done].
  by rewrite Hpq, IH.
Qed.

Lemma filter_length_le {A} (p : A -> bool) (l : list A) :
  (length (List.filter p l) <= length l)%nat.
Proof. induction l as [|x l IH]; simpl; [lia|]. destruct (p x); simpl; lia. Qed.

Lemma filter_all_true {A} (p : A -> bool) (l : list A) :
  forallb p l = true -> List.filter p l = l.
Proof.
  induction l as [|x l IH]; simpl; [done|].
  intros [Hx Hl]%andb_true_iff. by rewrite Hx, IH.
Qed.

Lemma filter_filter_idem {A} (p : A -> bool) (l : list A) :
  List.filter p (List.filter p l) = List.filter p l.
Proof. apply filter_all_true, forallb_filter. done. Qed.

Lemma filter_Forall_true {A} (P : A -> Prop) (p : A -> bool) (l : list A) :
  Forall P l -> (forall x, P x -> p x = true) -> List.filter p l = l.
Proof. induction 1 as [|x l Hx _ IH]; intros Hp; cbn; [done|]. by rewrite Hp, IH. Qed.

Lemma filter_Forall_false {A} (P : A -> Prop) (p : A -> bool) (l : list A) :
  Forall P l -> (forall x, P x -> p x = false) -> List.filter p l = [].
Proof. induction 1 as [|x l Hx _ IH]; intros Hp; cbn; [done|]. by rewrite Hp, IH. Qed.

#[export] Hint Resolve filter_length_le forallb_filter : psych.
#[export] Hint Rewrite @filter_filter_idem : psych_rw.

(** ** Generic lemmas on strings *)

(** Induction on a string whose hypothesis holds of every shorter string
    (for functions that consume several characters at a time). *)
Lemma string_strong_ind (P : string -> Prop) :
  P EmptyString ->
  (forall c r, (forall r', String.length r' <= String.length r -> P r') -> P (String c r)) ->
  forall s, P s.
Proof.
  intros H0 HS s. remember (String.length s) as m eqn:Hm.
  revert s Hm. induction m as [m IH] using lt_wf_ind. intros [|c r] Hm; [done|].
  apply HS. intros r' Hr'. apply (IH (String.length r')); [cbn in Hm; lia|done].
Qed.

(** ** Generic lemmas on Z *)

(** [n] doublings of [d]. *)
Lemma Z_double_iter (d : Z) (n : nat) :
  Nat.iter n (fun x => x * 2)%Z d = (d * 2 ^ Z.of_nat n)%Z.
Proof.
  induction n as [|n IH]; simpl Nat.iter; [lia|].
  rewrite IH, Nat2Z.inj_succ, Z.pow_succ_r; lia.
Qed.
