(* ===== verification/JsValue.v ===== *)
(** * JsValue: the JavaScript semantics the script relies on

    The values a parsed JSON body can hold ([jsval]), the exceptions the
    script throws or provokes ([exn]), the completion of a JavaScript
    expression ([completion]: a value or a throw, a monad with stdpp's
    [x ← c; k] notation), property access [o.k] and [o?.k], truthiness
    and the operators [||] and [===] on strings, and the string
    conversion a template literal applies to a value.  Everything here is
    ECMAScript behaviour the source uses, not code of the repository. *)

From S2P Require Import Prelude.
From stdpp Require Import pretty.
From Stdlib Require Import QArith_base Ascii NArith.

(** ** Values *)

#[local] Set Warnings "-register-all".

(** JSON numbers are decimal: a rational models every number a JSON text
    can denote exactly (JavaScript rounds it to a double, which changes
    nothing for the tests the script makes: zero or not). *)
Inductive jsval :=
| JUndef
| JNull
| JBool (b : bool)
| JNum (q : Q)
| JStr (s : string)
| JArr (l : list jsval)
| JObj (fields : list (string * jsval)).

(** A thrown exception: [new Error(m)], or an error the engine raises. *)
Inductive exn :=
| Error (msg : string)
| TypeError (msg : string)
| SyntaxError (msg : string).

Definition exn_message (e : exn) : string :=
  match e with Error m | TypeError m | SyntaxError m => m end.

(** ** Completions *)

Inductive completion (A : Type) :=
| Normal (a : A)
| Throw (e : exn).
Arguments Normal {A} a.
Arguments Throw {A} e.

#[export] Instance completion_ret : MRet completion := fun A a => Normal a.
#[export] Instance completion_bind : MBind completion :=
  fun A B f c => match c with Normal a => f a | Throw e => Throw e end.
#[export] Instance completion_fmap : FMap completion :=
  fun A B f c => match c with Normal a => Normal (f a) | Throw e => Throw e end.

Definition is_normal {A} (c : completion A) : bool :=
  match c with Normal _ => true | Throw _ => false end.

Lemma bind_Normal {A B} (a : A) (f : A -> completion B) :
  (Normal a ≫= f) = f a.
Proof. done. Qed.

Lemma bind_Throw {A B} (e : exn) (f : A -> completion B) :
  (Throw e ≫= f) = Throw e.
Proof. done. Qed.

Lemma bind_eq_Normal {A B} (c : completion A) (f : A -> completion B) (b : B) :
  (c ≫= f) = Normal b -> exists a, c = Normal a /\ f a = Normal b.
Proof. destruct c; simpl; [eauto | discriminate]. Qed.

#[export] Hint Rewrite @bind_Normal @bind_Throw : psych_rw.

(** Expose the binds of the goal and reduce those whose argument is known. *)
Ltac jsimpl :=
  unfold mbind, completion_bind, mret, completion_ret; cbv beta iota.

(** Take apart a hypothesis [H : c = Normal v] whose left side is a chain
    of binds and tests, one case per step. *)
Ltac completion_inv H :=
  unfold mbind, completion_bind, mret, completion_ret in H;
  repeat match type of H with
  | context [match ?c with Normal _ => _ | Throw _ => _ end] =>
      let E := fresh "E" in destruct c eqn:E; cbn in H; try discriminate H
  | context [if ?b then _ else _] =>
      let E := fresh "E" in destruct b eqn:E; cbn in H; try discriminate H
  end.

(** ** Truthiness, [||], [===] *)

Definition nullish (v : jsval) : bool :=
  match v with JUndef | JNull => true | _ => false end.

Definition truthy (v : jsval) : bool :=
  match v with
  | JUndef | JNull => false
  | JBool b => b
  | JNum q => negb (Qnum q =? 0)%Z
  | JStr s => negb (String.eqb s "")
  | JArr _ | JObj _ => true
  end.

(** [a || b] *)
Definition js_or (a b : jsval) : jsval := if truthy a then a else b.

(** [v === "s"]: strict equality against a string literal. *)
Definition strict_eq_str (v : jsval) (s : string) : bool :=
  match v with JStr t => String.eqb t s | _ => false end.

Lemma js_or_truthy a b : truthy (js_or a b) = truthy a || truthy b.
Proof. unfold js_or. destruct (truthy a) eqn:E; simpl; congruence. Qed.

Lemma nullish_not_truthy v : nullish v = true -> truthy v = false.
Proof. destruct v; simpl; congruence. Qed.

(** ** Property access *)

(** The canonical array index a property name denotes: ["0"] or a digit
    string without leading zero. *)
Definition digit_value (c : ascii) : option nat :=
  let n := Ascii.nat_of_ascii c in
  if (48 <=? n) && (n <=? 57) then Some (n - 48)%nat else None.

Fixpoint digits_value (acc : nat) (s : string) : option nat :=
  match s with
  | EmptyString => Some acc
  | String c s' =>
      match digit_value c with
      | Some d => digits_value (acc * 10 + d)%nat s'
      | None => None
      end
  end.

Definition array_index (k : string) : option nat :=
  match k with
  | String "0" EmptyString => Some 0%nat
  | String c _ =>
      match digit_value c with
      | Some (S _) => digits_value 0 k
      | _ => None
      end
  | EmptyString => None
  end.

(** The value of the last binding of a key: [JSON.parse] keeps the last of
    duplicate keys. *)
Fixpoint assoc_last (k : string) (fs : list (string * jsval)) : option jsval :=
  match fs with
  | [] => None
  | (k', v) :: fs' =>
      match assoc_last k fs' with
      | Some w => Some w
      | None => if String.eqb k k' then Some v else None
      end
  end.

Definition nat_num (n : nat) : jsval := JNum (inject_Z (Z.of_nat n)).

Definition read_error (base k : string) : exn :=
  TypeError ("Cannot read properties of " +s+ base +s+ " (reading '" +s+ k +s+ "')").

(** [v[k]] and [v.k].  Objects parsed from JSON inherit from
    [Object.prototype], whose members are never read by the script, so an
    absent own property reads as [undefined]. *)
Definition get (v : jsval) (k : string) : completion jsval :=
  match v with
  | JUndef => Throw (read_error "undefined" k)
  | JNull => Throw (read_error "null" k)
  | JObj fs => Normal (default JUndef (assoc_last k fs))
  | JArr l =>
      if String.eqb k "length" then Normal (nat_num (length l)) else
      match array_index k with
      | Some i => Normal (default JUndef (l !! i))
      | None => Normal JUndef
      end
  | JStr s =>
      if String.eqb k "length" then Normal (nat_num (String.length s)) else
      match array_index k with
      | Some i =>
          Normal (match String.get i s with
                  | Some c => JStr (String c EmptyString)
                  | None => JUndef
                  end)
      | None => Normal JUndef
      end
  | JBool _ | JNum _ => Normal JUndef
  end.

(** [v?.k]: [undefined] on a nullish base instead of a throw. *)
Definition oget (v : jsval) (k : string) : completion jsval :=
  if nullish v then Normal JUndef else get v k.

(** [a.map(f)]: only an array has a [map] method (JSON values have no
    functions); on [null] or [undefined] the read of [map] throws. *)
Definition js_map {B} (what : string) (v : jsval) (f : jsval -> completion B)
  : completion (list B) :=
  match v with
  | JArr l => mapM f l
  | JUndef => Throw (read_error "undefined" "map")
  | JNull => Throw (read_error "null" "map")
  | _ => Throw (TypeError (what +s+ ".map is not a function"))
  end.

Lemma get_obj k fs : get (JObj fs) k = Normal (default JUndef (assoc_last k fs)).
Proof. done. Qed.

Lemma oget_nullish v k : nullish v = true -> oget v k = Normal JUndef.
Proof. unfold oget. by intros ->. Qed.

Lemma oget_not_nullish v k : nullish v = false -> oget v k = get v k.
Proof. unfold oget. by intros ->. Qed.

(** Reading a property never throws on a value that is not nullish. *)
Lemma get_not_nullish v k : nullish v = false -> exists w, get v k = Normal w.
Proof.
  destruct v; simpl; try discriminate; intros _; eauto;
    repeat (case_match; eauto).
Qed.

(** [?.] never throws. *)
Lemma oget_Normal v k : exists w, oget v k = Normal w.
Proof.
  unfold oget. destruct (nullish v) eqn:E; [eauto|]. by apply get_not_nullish.
Qed.

Lemma js_map_arr_length {B} what l (f : jsval -> completion B) r :
  js_map what (JArr l) f = Normal r -> length r = length l.
Proof.
  simpl. revert r. induction l as [|x l IH]; intros r; simpl.
  - by intros [= <-].
  - destruct (f x); simpl; [|discriminate].
    destruct (mapM f l) eqn:E; simpl; [|discriminate].
    intros [= <-]. simpl. f_equal. by apply IH.
Qed.

(** [mapM] over a list whose every element maps normally. *)
Lemma mapM_Normal {B} (f : jsval -> completion B) (g : jsval -> B) l :
  (forall x, In x l -> f x = Normal (g x)) -> mapM f l = Normal (map g l).
Proof.
  induction l as [|x l IH]; intros Hf; [done|]. cbn.
  rewrite (Hf x) by (left; done). cbn. rewrite IH by (intros y Hy; apply Hf; by right). done.
Qed.

(** [mapM] throws when one of the elements does. *)
Lemma mapM_not_normal {B} (f : jsval -> completion B) l x :
  In x l -> is_normal (f x) = false -> is_normal (mapM f l) = false.
Proof.
  induction l as [|y l IH]; [done|]. intros [->|Hin] Hx; cbn.
  - by destruct (f x).
  - destruct (f y); cbn; [|done]. specialize (IH Hin Hx).
    by destruct (mapM f l).
Qed.

(** ** String conversion of a value, as in a template literal *)

Fixpoint frac_digits (fuel : nat) (r d : Z) : string :=
  match fuel with
  | O => EmptyString
  | S f =>
      if (r =? 0)%Z then EmptyString
      else pretty ((r * 10) / d)%Z +s+ frac_digits f ((r * 10) mod d)%Z d
  end.

(** [Number.prototype.toString] in plain decimal notation (exact for the
    numbers between [1e-6] and [1e21] with at most 20 fraction digits,
    the range in which JavaScript does not switch to exponent form). *)
Definition num_to_string (q : Q) : string :=
  let n := Qnum q in
  let d := Zpos (Qden q) in
  let a := Z.abs n in
  (if (n <? 0)%Z then "-" else "") +s+ pretty (a / d)%Z +s+
  (if (a mod d =? 0)%Z then "" else "." +s+ frac_digits 20 (a mod d) d).

Fixpoint join_with (sep : string) (l : list string) : string :=
  match l with
  | [] => ""
  | [s] => s
  | s :: l' => s +s+ sep +s+ join_with sep l'
  end.

(** [String(v)]; an array is joined with [","], its [null] and
    [undefined] elements read as the empty string. *)
Fixpoint to_string (v : jsval) : string :=
  match v with
  | JUndef => "undefined"
  | JNull => "null"
  | JBool b => if b then "true" else "false"
  | JNum q => num_to_string q
  | JStr s => s
  | JArr l =>
      join_with "," (map (fun x => match x with
                                   | JUndef | JNull => ""
                                   | _ => to_string x
                                   end) l)
  | JObj _ => "[object Object]"
  end.

(** ** [String.prototype.trim] *)

(** The white space and line terminators of ECMAScript in the ASCII range
    (tab, line feed, vertical tab, form feed, carriage return, space). *)
Definition js_space (c : ascii) : bool :=
  let n := Ascii.nat_of_ascii c in ((9 <=? n) && (n <=? 13)) || (n =? 32).

Fixpoint trim_start (s : string) : string :=
  match s with
  | String c r => if js_space c then trim_start r else s
  | EmptyString => EmptyString
  end.

Fixpoint trim_end (s : string) : string :=
  match s with
  | String c r =>
      match trim_end r with
      | EmptyString => if js_space c then EmptyString else String c EmptyString
      | r' => String c r'
      end
  | EmptyString => EmptyString
  end.

Definition js_trim (s : string) : string := trim_end (trim_start s).

(** ** [String.prototype.substring(0, n)] and [length]

    JavaScript strings are sequences of UTF-16 code units; the model's
    strings are their bytes in generalized UTF-8 (a lone surrogate is its
    three-byte form, as [JSON.parse] in [Json] produces it).  A character
    of one to three bytes is one code unit, one of four bytes is a
    surrogate pair, two units.  A lead byte with too few bytes after it
    (which a string of the script never holds) counts as one unit and is
    kept whole.  [s.substring(0, n)] keeps the first [n] units; when the
    [n]-th unit is the high half of a pair, it keeps that lone high
    surrogate. *)

#[local] Open Scope nat_scope.

(** The number of bytes of the character a byte starts. *)
Definition lead_len (c : ascii) : nat :=
  let n := nat_of_ascii c in
  if n <? 192 then 1 else if n <? 224 then 2 else if n <? 240 then 3 else 4.
Arguments lead_len : simpl never.

(** [s.length] *)
Fixpoint utf16_length (s : string) : nat :=
  match s with
  | EmptyString => 0
  | String c r =>
      match lead_len c, r with
      | 2, String _ r1 => S (utf16_length r1)
      | 3, String _ (String _ r2) => S (utf16_length r2)
      | 4, String _ (String _ (String _ r3)) => S (S (utf16_length r3))
      | 2, _ | 3, _ | 4, _ => 1
      | _, _ => S (utf16_length r)
      end
  end.

(** The high surrogate of the character of the four bytes, in its
    three-byte form. *)
Definition high_surrogate_of (c c1 c2 c3 : ascii) : string :=
  let cp := (N_of_ascii c mod 8 * 262144 + N_of_ascii c1 mod 64 * 4096 +
             N_of_ascii c2 mod 64 * 64 + N_of_ascii c3 mod 64)%N in
  let x := ((cp - 65536) / 1024 mod 1024)%N in
  String (ascii_of_N 237) (String (ascii_of_N (160 + x / 64))
    (String (ascii_of_N (128 + x mod 64)) EmptyString)).

(** [s.substring(0, n)] *)
Fixpoint js_prefix (n : nat) (s : string) {struct s} : string :=
  match n with
  | 0 => EmptyString
  | S n' =>
      match s with
      | EmptyString => EmptyString
      | String c r =>
          match lead_len c, r with
          | 2, String c1 r1 => String c (String c1 (js_prefix n' r1))
          | 3, String c1 (String c2 r2) => String c (String c1 (String c2 (js_prefix n' r2)))
          | 4, String c1 (String c2 (String c3 r3)) =>
              match n' with
              | 0 => high_surrogate_of c c1 c2 c3
              | S n'' => String c (String c1 (String c2 (String c3 (js_prefix n'' r3))))
              end
          | 2, _ | 3, _ | 4, _ => s
          | _, _ => String c (js_prefix n' r)
          end
      end
  end.

(** ** Lemmas on [substring] and [length] *)

(** Split on the length of the first character and the bytes after it. *)
Ltac utf_cases c r :=
  let E := fresh "E" in
  destruct (lead_len c) as [|[|[|[|[|?]]]]] eqn:E; destruct r as [|?c1 [|?c2 [|?c3 ?r3]]].

Lemma js_prefix_all n s : utf16_length s <= n -> js_prefix n s = s.
Proof.
  revert n. induction s as [|c r IH] using string_strong_ind; intros n Hn; destruct n as [|n]; cbn in Hn |- *;
    try done; try lia.
  all: utf_cases c r; cbn -[js_prefix utf16_length] in *; try lia;
  repeat match goal with
  | |- String _ _ = String _ _ => f_equal
  | |- match ?n with 0 => _ | S _ => _ end = _ => destruct n; [lia|]
  | |- js_prefix _ _ = _ => apply IH; [cbn [String.length]; lia|lia]
  end.
Qed.

Lemma utf16_length_String c r :
  utf16_length (String c r) =
    match lead_len c, r with
    | 2, String _ r1 => S (utf16_length r1)
    | 3, String _ (String _ r2) => S (utf16_length r2)
    | 4, String _ (String _ (String _ r3)) => S (S (utf16_length r3))
    | 2, _ | 3, _ | 4, _ => 1
    | _, _ => S (utf16_length r)
    end.
Proof. reflexivity. Qed.

Lemma utf16_length_nil : utf16_length EmptyString = 0.
Proof. reflexivity. Qed.

Lemma js_prefix_nil n : js_prefix n EmptyString = EmptyString.
Proof. by destruct n. Qed.

Lemma utf16_length_high_surrogate c c1 c2 c3 : utf16_length (high_surrogate_of c c1 c2 c3) = 1.
Proof. unfold high_surrogate_of. rewrite utf16_length_String. reflexivity. Qed.

Lemma js_prefix_length n s : utf16_length (js_prefix n s) = Nat.min n (utf16_length s).
Proof.
  revert n. induction s as [|c r IH] using string_strong_ind; intros [|n]; try reflexivity.
  simpl js_prefix. rewrite (utf16_length_String c r).
  utf_cases c r; cbn -[js_prefix utf16_length high_surrogate_of];
    try (destruct n; [by rewrite utf16_length_high_surrogate|]);
    rewrite ?js_prefix_nil, (utf16_length_String c), ?E; cbn -[js_prefix utf16_length high_surrogate_of];
    rewrite ?utf16_length_nil, ?IH by (cbn; lia); lia.
Qed.
