(* ===== verification/Json.v ===== *)
(** * Json: [JSON.parse] and [JSON.stringify]

    The script reads every response body with [response.json()] and parses
    the structured reply of the details call with [JSON.parse]; it sends
    its payloads as [JSON.stringify(payload)].  These are built-ins of the
    browser, not code of the repository.  The components that use them
    are proved against the interface [JsonBuiltins] (any parser), and this
    file gives an implementation of the grammar of RFC 8259 that the
    concrete runs and witnesses use.

    Strings are byte strings holding UTF-8 text.  A [\uXXXX] escape is
    encoded as UTF-8 (a surrogate pair as one four-byte sequence, a lone
    surrogate as its three-byte form).  The text of a [SyntaxError] is the
    engine's; the model uses one fixed text. *)

From S2P Require Import Prelude JsValue.
From Stdlib Require Import QArith_base Ascii.

(** ** The interface the components use *)

Class JsonBuiltins := {
  json_parse : string -> completion jsval;
  json_stringify : jsval -> string
}.

(** A JSON string literal of [s] (for texts without quotes or
    backslashes). *)
Definition quoted (s : string) : string := String "034" (s +s+ String "034" EmptyString).

(** ** An implementation *)

Module JsonImpl.

Definition syntax_error : exn := SyntaxError "Unexpected token in JSON".

Definition is_ws (c : ascii) : bool :=
  match c with " " | "009" | "010" | "013" => true | _ => false end%char.

Fixpoint skip_ws (s : string) : string :=
  match s with
  | String c r => if is_ws c then skip_ws r else s
  | EmptyString => s
  end.

Definition hex_value (c : ascii) : option Z :=
  let n := Z.of_nat (nat_of_ascii c) in
  if (48 <=? n)%Z && (n <=? 57)%Z then Some (n - 48)%Z
  else if (65 <=? n)%Z && (n <=? 70)%Z then Some (n - 55)%Z
  else if (97 <=? n)%Z && (n <=? 102)%Z then Some (n - 87)%Z
  else None.

Definition byte (n : Z) : ascii := ascii_of_nat (Z.to_nat n).

(** UTF-8 encoding of a code point below [0x110000]. *)
Definition utf8 (cp : Z) : string :=
  if (cp <? 128)%Z then String (byte cp) EmptyString
  else if (cp <? 2048)%Z then
    String (byte (192 + cp / 64)) (String (byte (128 + cp mod 64)) EmptyString)
  else if (cp <? 65536)%Z then
    String (byte (224 + cp / 4096))
      (String (byte (128 + (cp / 64) mod 64)) (String (byte (128 + cp mod 64)) EmptyString))
  else
    String (byte (240 + cp / 262144))
      (String (byte (128 + (cp / 4096) mod 64))
        (String (byte (128 + (cp / 64) mod 64)) (String (byte (128 + cp mod 64)) EmptyString))).

(** A decoded piece of a string literal: a byte of the text itself, or the
    UTF-16 code unit of a [\uXXXX] escape. *)
Inductive sunit := UByte (c : ascii) | UCode (cu : Z).

Definition high_surrogate (cu : Z) : bool := ((55296 <=? cu) && (cu <? 56320))%Z.
Definition low_surrogate (cu : Z) : bool := ((56320 <=? cu) && (cu <? 57344))%Z.

Fixpoint encode_units (us : list sunit) : string :=
  match us with
  | [] => EmptyString
  | UByte c :: r => String c (encode_units r)
  | UCode hi :: (UCode lo :: r) as tl =>
      if high_surrogate hi && low_surrogate lo
      then utf8 (65536 + (hi - 55296) * 1024 + (lo - 56320))%Z +s+ encode_units r
      else utf8 hi +s+ encode_units tl
  | UCode cu :: r => utf8 cu +s+ encode_units r
  end.

Definition hex4 (a b c d : ascii) : option Z :=
  match hex_value a, hex_value b, hex_value c, hex_value d with
  | Some x, Some y, Some z, Some w => Some (((x * 16 + y) * 16 + z) * 16 + w)%Z
  | _, _, _, _ => None
  end.

Definition escape_char (e : ascii) : option ascii :=
  match e with
  | "034" => Some "034" | "\" => Some "\" | "/" => Some "/"
  | "b" => Some "008" | "f" => Some "012" | "n" => Some "010"
  | "r" => Some "013" | "t" => Some "009"
  | _ => None
  end%char.

(** The body of a string literal after its opening quote, up to and
    including the closing quote: the decoded pieces and the rest. *)
Fixpoint pstring (s : string) : option (list sunit * string) :=
  match s with
  | EmptyString => None
  | String c r =>
      if (c =? "034")%char then Some ([], r)
      else if (c =? "\")%char then
        match r with
        | String "u" (String a (String b (String c' (String d r')))) =>
            match hex4 a b c' d, pstring r' with
            | Some cu, Some (t, r'') => Some (UCode cu :: t, r'')
            | _, _ => None
            end
        | String e r' =>
            match escape_char e, pstring r' with
            | Some k, Some (t, r'') => Some (UByte k :: t, r'')
            | _, _ => None
            end
        | EmptyString => None
        end
      else if (nat_of_ascii c <? 32)%nat then None
      else
        match pstring r with
        | Some (t, r') => Some (UByte c :: t, r')
        | None => None
        end
  end.

(** Digits [0-9]*: their value appended to [acc], how many, and the rest. *)
Fixpoint pdigits (s : string) (acc : Z) (n : nat) : Z * nat * string :=
  match s with
  | String c r =>
      match digit_value c with
      | Some d => pdigits r (acc * 10 + Z.of_nat d)%Z (S n)
      | None => (acc, n, s)
      end
  | EmptyString => (acc, n, s)
  end.

(** [m * 10^k] as a rational. *)
Definition decimal (m k : Z) : Q :=
  if (0 <=? k)%Z then inject_Z (m * 10 ^ k) else Qmake m (Z.to_pos (10 ^ (- k))).

(** [-? (0 | [1-9][0-9]* ) (. [0-9]+)? ([eE] [+-]? [0-9]+)?] *)
Definition pnumber (s : string) : option (Q * string) :=
  let '(neg, s1) := match s with
                    | String "-" r => (true, r)
                    | _ => (false, s)
                    end%char in
  let int_part :=
    match s1 with
    | String "0" r => Some (0%Z, r)
    | String c _ =>
        match digit_value c with
        | Some (S _) => let '(v, _, r) := pdigits s1 0 0 in Some (v, r)
        | _ => None
        end
    | EmptyString => None
    end%char in
  match int_part with
  | None => None
  | Some (iv, s2) =>
      let frac :=
        match s2 with
        | String "." r =>
            let '(v, n, r') := pdigits r iv 0 in
            if (n =? 0)%nat then None else Some (v, Z.of_nat n, r')
        | _ => Some (iv, 0%Z, s2)
        end%char in
      match frac with
      | None => None
      | Some (m, fl, s3) =>
          let expo :=
            match s3 with
            | String e r =>
                if (e =? "e")%char || (e =? "E")%char then
                  let '(eneg, r1) := match r with
                                     | String "-" r' => (true, r')
                                     | String "+" r' => (false, r')
                                     | _ => (false, r)
                                     end%char in
                  let '(v, n, r2) := pdigits r1 0 0 in
                  if (n =? 0)%nat then None
                  else Some (if eneg then (- v)%Z else v, r2)
                else Some (0%Z, s3)
            | EmptyString => Some (0%Z, s3)
            end in
          match expo with
          | None => None
          | Some (ev, s4) =>
              Some (decimal (if neg then (- m)%Z else m) (ev - fl)%Z, s4)
          end
      end
  end.

Definition pliteral (s : string) : option (jsval * string) :=
  match s with
  | String "t" (String "r" (String "u" (String "e" r))) => Some (JBool true, r)
  | String "f" (String "a" (String "l" (String "s" (String "e" r)))) => Some (JBool false, r)
  | String "n" (String "u" (String "l" (String "l" r))) => Some (JNull, r)
  | _ =>
      match pnumber s with
      | Some (q, r) => Some (JNum q, r)
      | None => None
      end
  end%char.

(** A value, the members of an object after [{] and the elements of an
    array after [[]; [fuel] bounds the nesting and the number of members
    (the length of the text is enough). *)
Fixpoint pvalue (fuel : nat) (s : string) : option (jsval * string) :=
  match fuel with
  | O => None
  | S f =>
      match skip_ws s with
      | String "{" r =>
          match skip_ws r with
          | String "}" r' => Some (JObj [], r')
          | _ => pmembers f r []
          end
      | String "[" r =>
          match skip_ws r with
          | String "]" r' => Some (JArr [], r')
          | _ => pelems f r []
          end
      | String "034" r =>
          match pstring r with
          | Some (t, r') => Some (JStr (encode_units t), r')
          | None => None
          end
      | s' => pliteral s'
      end%char
  end
with pmembers (fuel : nat) (s : string) (acc : list (string * jsval))
  : option (jsval * string) :=
  match fuel with
  | O => None
  | S f =>
      match skip_ws s with
      | String "034" r =>
          match pstring r with
          | Some (k, r1) =>
              match skip_ws r1 with
              | String ":" r2 =>
                  match pvalue f r2 with
                  | Some (v, r3) =>
                      let acc' := acc ++ [(encode_units k, v)] in
                      match skip_ws r3 with
                      | String "," r4 => pmembers f r4 acc'
                      | String "}" r4 => Some (JObj acc', r4)
                      | _ => None
                      end
                  | None => None
                  end
              | _ => None
              end
          | None => None
          end
      | _ => None
      end%char
  end
with pelems (fuel : nat) (s : string) (acc : list jsval) : option (jsval * string) :=
  match fuel with
  | O => None
  | S f =>
      match pvalue f s with
      | Some (v, r) =>
          let acc' := acc ++ [v] in
          match skip_ws r with
          | String "," r' => pelems f r' acc'
          | String "]" r' => Some (JArr acc', r')
          | _ => None
          end
      | None => None
      end%char
  end.

(** [JSON.parse(s)]: one value, surrounded by white space only. *)
Definition parse (s : string) : completion jsval :=
  match pvalue (S (2 * String.length s)) s with
  | Some (v, r) =>
      match skip_ws r with
      | EmptyString => Normal v
      | _ => Throw syntax_error
      end
  | None => Throw syntax_error
  end.

(** ** [JSON.stringify] *)

Definition hex_digit (n : Z) : ascii := byte (if (n <? 10)%Z then 48 + n else 87 + n)%Z.

(** The escaped form of one byte of a string. *)
Definition escape_byte (c : ascii) : string :=
  let n := Z.of_nat (nat_of_ascii c) in
  if (c =? "034")%char then String "\" (String "034" EmptyString)
  else if (c =? "\")%char then String "\" (String "\" EmptyString)
  else if (n =? 8)%Z then "\b"
  else if (n =? 12)%Z then "\f"
  else if (n =? 10)%Z then "\n"
  else if (n =? 13)%Z then "\r"
  else if (n =? 9)%Z then "\t"
  else if (n <? 32)%Z
  then "\u00" +s+ String (hex_digit (n / 16)) (String (hex_digit (n mod 16)) EmptyString)
  else String c EmptyString.

Fixpoint escape_string (s : string) : string :=
  match s with
  | EmptyString => EmptyString
  | String c r => escape_byte c +s+ escape_string r
  end.

Definition quote_string (s : string) : string :=
  String "034" (escape_string s +s+ String "034" EmptyString).

(** [JSON.stringify] on the values the script sends: an [undefined]
    member of an object is left out, an [undefined] element of an array
    (or at the top) is written [null]. *)
Fixpoint stringify (v : jsval) : string :=
  match v with
  | JUndef | JNull => "null"
  | JBool b => if b then "true" else "false"
  | JNum q => num_to_string q
  | JStr s => quote_string s
  | JArr l => "[" +s+ join_with "," (map stringify l) +s+ "]"
  | JObj fs =>
      "{" +s+
      join_with "," (omap (fun '(k, x) =>
                             match x with
                             | JUndef => None
                             | _ => Some (quote_string k +s+ ":" +s+ stringify x)
                             end) fs)
      +s+ "}"
  end.

End JsonImpl.

#[export] Instance json_builtins_impl : JsonBuiltins :=
  {| json_parse := JsonImpl.parse; json_stringify := JsonImpl.stringify |}.
