(* ===== verification/Executor.v ===== *)
(** * Executor: the retry loop around [fetch]

    [callGeminiAPI] (src/index.js, lines 165-195) and [callGeminiForDetails]
    (lines 485-522) contain the same loop: up to [retries = 3] attempts,
    each a POST of the JSON payload; a status 429 or 5xx, a non-ok status,
    a body that is not JSON, a rejected [fetch] and any throw of the code
    that processes the parsed body are all caught by the same [catch],
    which logs the message, decrements [retries], rethrows when it reaches
    0, and otherwise sleeps [delay] ms and doubles [delay].

    [Module RetryLoop] models the loop once, in a [Section] whose context
    is what differs between the two callers: the request, the processing of
    the parsed body ([process]) and the answers of the network ([net],
    the outcome of the [n]-th fetch).  The loop state is explicit
    ([loop_state]) and the observable behaviour is a [trace] of fetches,
    warnings and sleeps.

    [Module RetryMachine] is the abstract retry state machine of the
    specification (states Attempting, BackingOff, Succeeded, FailedTerminal
    and their transitions), and the refinement theorem shows that every run
    of the loop is a run of that machine. *)

From S2P Require Import Prelude JsValue Json.
From stdpp Require Import pretty.
From Stdlib Require Import QArith_base.

(** ** HTTP *)

Record request := {
  req_url : string;
  req_method : string;
  req_content_type : string;
  req_body : string
}.

Record response := {
  status : Z;
  statusText : string;
  body : string
}.

(** What one call of [fetch] yields: a response, or a rejection (a
    network failure rejects with a [TypeError]). *)
Inductive fetch_outcome :=
| Responded (r : response)
| NetworkError (e : exn).

(** [response.ok] *)
Definition response_ok (r : response) : bool := (200 <=? status r)%Z && (status r <=? 299)%Z.

(** [response.status === 429 || (response.status >= 500 && response.status < 600)] *)
Definition is_transient_status (s : Z) : bool :=
  (s =? 429)%Z || ((500 <=? s)%Z && (s <? 600)%Z).

Inductive event :=
| EvFetch (rq : request)
| EvWarn (msg : string)
| EvSleep (ms : Z).

(** Observations of a trace: the number of fetches and the delays slept. *)
Definition is_fetch (ev : event) : bool := match ev with EvFetch _ => true | _ => false end.
Definition fetch_count (tr : list event) : nat := length (List.filter is_fetch tr).
Definition sleeps (tr : list event) : list Z :=
  omap (fun ev => match ev with EvSleep d => Some d | _ => None end) tr.

Lemma fetch_count_app tr1 tr2 : fetch_count (tr1 ++ tr2) = (fetch_count tr1 + fetch_count tr2)%nat.
Proof.
  unfold fetch_count. induction tr1 as [|ev tr1 IH]; simpl; [done|].
  destruct (is_fetch ev); simpl; lia.
Qed.

Lemma sleeps_app tr1 tr2 : sleeps (tr1 ++ tr2) = sleeps tr1 ++ sleeps tr2.
Proof. apply omap_app. Qed.

#[export] Hint Rewrite fetch_count_app sleeps_app : psych_rw.

(** The first element of [seq a n] that satisfies [p]. *)
Lemma find_seq_first (p : nat -> bool) a n i :
  List.find p (seq a n) = Some i ->
  (a <= i < a + n)%nat /\ p i = true /\ (forall j, (a <= j < i)%nat -> p j = false).
Proof.
  revert a. induction n as [|n IH]; intros a; simpl; [discriminate|].
  destruct (p a) eqn:Hpa.
  - intros [= <-]. split; [lia|]. split; [done|]. intros j Hj; lia.
  - intros Hf. destruct (IH (S a) Hf) as (Hr & Hpi & Hbefore).
    split; [lia|]. split; [done|]. intros j Hj.
    destruct (decide (j = a)) as [->|]; [done|]. apply Hbefore. lia.
Qed.

Lemma find_seq_none (p : nat -> bool) a n :
  List.find p (seq a n) = None -> forall j, (a <= j < a + n)%nat -> p j = false.
Proof.
  intros Hf j Hj. destruct (p j) eqn:Hp; [|done].
  destruct (find_none p (seq a n) Hf j) as []; [apply in_seq; lia|congruence].
Qed.

Module RetryLoop.

Record loop_state := {
  retries : Z;
  delay : Z;
  attempts : nat;
  trace : list event
}.

(** [let retries = 3; let delay = 1000;] *)
Definition max_attempts : nat := 3.
Definition base_delay : Z := 1000.

Definition init_state : loop_state :=
  {| retries := Z.of_nat max_attempts; delay := base_delay; attempts := 0; trace := [] |}.

Inductive loop_result (A : Type) :=
| Returned (a : A)
| Raised (e : exn)
| FellThrough
| OutOfFuel.
Arguments Returned {A} a.
Arguments Raised {A} e.
Arguments FellThrough {A}.
Arguments OutOfFuel {A}.

Section Loop.

Context `{JsonBuiltins} {A : Type}.
Context (req : request) (process : jsval -> completion A) (net : nat -> fetch_outcome).

(** [`Server error (status ${response.status}). Retrying...`] *)
Definition server_error (r : response) : exn :=
  Error ("Server error (status " +s+ pretty (status r) +s+ "). Retrying...").

(** [`API Error: ${errorBody.error?.message || response.statusText}`] *)
Definition api_error (r : response) (errorBody : jsval) : completion exn :=
  e ← get errorBody "error";
  m ← oget e "message";
  mret (Error ("API Error: " +s+ to_string (js_or m (JStr (statusText r))))).

(** The [try] block of one attempt, after [fetch] has answered. *)
Definition try_attempt (fo : fetch_outcome) : completion A :=
  match fo with
  | NetworkError e => Throw e
  | Responded r =>
      if is_transient_status (status r) then Throw (server_error r)
      else if negb (response_ok r) then
        errorBody ← json_parse (body r);
        err ← api_error r errorBody;
        Throw err
      else
        result ← json_parse (body r);
        process result
  end.

Definition record_fetch (st : loop_state) : loop_state :=
  {| retries := retries st; delay := delay st; attempts := S (attempts st);
     trace := trace st ++ [EvFetch req] |}.

(** [console.warn(error.message); retries--;] *)
Definition catch_head (e : exn) (st : loop_state) : loop_state :=
  {| retries := retries st - 1; delay := delay st; attempts := attempts st;
     trace := trace st ++ [EvWarn (exn_message e)] |}.

(** [await new Promise(resolve => setTimeout(resolve, delay)); delay *= 2;] *)
Definition backoff (st : loop_state) : loop_state :=
  {| retries := retries st; delay := delay st * 2; attempts := attempts st;
     trace := trace st ++ [EvSleep (delay st)] |}.

(** [while (retries > 0) { try { ... } catch (error) { ... } }]; the
    fall-through after the loop returns [undefined]. *)
Fixpoint loop (fuel : nat) (st : loop_state) : loop_result A * loop_state :=
  match fuel with
  | O => (OutOfFuel, st)
  | S f =>
      if (0 <? retries st)%Z then
        let st1 := record_fetch st in
        match try_attempt (net (attempts st)) with
        | Normal a => (Returned a, st1)
        | Throw e =>
            let st2 := catch_head e st1 in
            if (retries st2 =? 0)%Z then (Raised e, st2)
            else loop f (backoff st2)
        end
      else (FellThrough, st)
  end.

(** One more iteration than [retries] always suffices (see
    [loop_fuel_enough]). *)
Definition retry_fuel (st : loop_state) : nat := S (Z.to_nat (retries st)).

Definition run : loop_result A * loop_state := loop (retry_fuel init_state) init_state.

(** ** The reference behaviour: the first attempt that does not throw *)

Definition outcome (i : nat) : completion A := try_attempt (net i).

Definition result_of (c : completion A) : loop_result A :=
  match c with Normal a => Returned a | Throw e => Raised e end.

(** The events of the [i]-th attempt (from 0): the fetch, and when it
    throws the warning and, unless it was the last allowed attempt, the
    sleep of [base_delay * 2^i] ms. *)
Definition attempt_events (i : nat) : list event :=
  EvFetch req ::
  match outcome i with
  | Normal _ => []
  | Throw e =>
      EvWarn (exn_message e) ::
      (if (S i <? max_attempts)%nat then [EvSleep (base_delay * 2 ^ Z.of_nat i)] else [])
  end.

(** The result and the number of attempts when attempts [n .. n+r-1]
    remain: the first one that does not throw, or the last one. *)
Definition window (n r : nat) : loop_result A * nat :=
  match List.find (fun i => is_normal (outcome i)) (seq n r) with
  | Some i => (result_of (outcome i), S i)
  | None => (result_of (outcome (n + r - 1)), (n + r)%nat)
  end.

Definition spec_result : loop_result A * nat := window 0 max_attempts.

End Loop.

(** ** The loop computes the reference behaviour *)

Section LoopProofs.

Context `{JsonBuiltins} {A : Type}.
Context (req : request) (process : jsval -> completion A) (net : nat -> fetch_outcome).

Abbreviation outcome := (outcome process net).
Abbreviation window := (window process net).
Abbreviation attempt_events := (attempt_events req process net).
Abbreviation loop := (loop req process net).

Lemma window_skip n r e :
  outcome n = Throw e -> window n (S r) = window (S n) r.
Proof.
  intros He. unfold window. cbn [seq List.find]. rewrite He. cbn [is_normal].
  replace (n + S r - 1)%nat with (S n + r - 1)%nat by lia.
  by replace (n + S r)%nat with (S n + r)%nat by lia.
Qed.

Lemma window_bounds n r :
  (1 <= r)%nat -> (n < snd (window n r) <= n + r)%nat.
Proof.
  unfold window. destruct (List.find _ _) as [i|] eqn:Hf; simpl; [|lia].
  apply find_some in Hf as [Hin _]. apply in_seq in Hin. lia.
Qed.

Lemma window_here n r a :
  outcome n = Normal a -> window n (S r) = (Returned a, S n).
Proof. intros Ha. unfold window. cbn [seq List.find]. rewrite Ha. cbn [is_normal]. by rewrite Ha. Qed.

Lemma attempt_events_throw i e :
  outcome i = Throw e ->
  attempt_events i =
    EvFetch req :: EvWarn (exn_message e) ::
    (if (S i <? max_attempts)%nat then [EvSleep (base_delay * 2 ^ Z.of_nat i)] else []).
Proof. intros He. unfold RetryLoop.attempt_events. fold (outcome i). by rewrite He. Qed.

Lemma attempt_events_normal i a :
  outcome i = Normal a -> attempt_events i = [EvFetch req].
Proof. intros Ha. unfold RetryLoop.attempt_events. fold (outcome i). by rewrite Ha. Qed.

(** The invariant of the loop entry: [retries + attempts = 3] and
    [delay = 1000 * 2^attempts]. *)
Lemma loop_window r f st :
  (1 <= r <= f)%nat ->
  retries st = Z.of_nat r ->
  delay st = (base_delay * 2 ^ Z.of_nat (attempts st))%Z ->
  (attempts st + r = max_attempts)%nat ->
  fst (loop f st) = fst (window (attempts st) r) /\
  attempts (snd (loop f st)) = snd (window (attempts st) r) /\
  trace (snd (loop f st)) =
    trace st ++ flat_map attempt_events
                   (seq (attempts st) (snd (window (attempts st) r) - attempts st)).
Proof.
  revert f st. induction r as [|r IH]; intros f st Hr Hret Hdel Hsum; [lia|].
  destruct f as [|f]; [lia|]. simpl loop.
  rewrite Hret. replace (0 <? Z.of_nat (S r))%Z with true by cmp_lia.
  fold (outcome (attempts st)).
  destruct (outcome (attempts st)) as [a|e] eqn:Ho.
  - rewrite (window_here _ _ _ Ho). cbn [fst snd]. split; [done|]. split; [done|].
    replace (S (attempts st) - attempts st)%nat with 1%nat by lia.
    cbn [seq flat_map]. rewrite (attempt_events_normal _ _ Ho). by rewrite app_nil_r.
  - rewrite (window_skip _ _ _ Ho). simpl retries.
    destruct r as [|r].
    + replace (Z.of_nat 1 - 1 =? 0)%Z with true by cmp_lia.
      unfold window. cbn [seq List.find fst snd].
      replace (S (attempts st) + 0 - 1)%nat with (attempts st) by lia.
      rewrite Ho. cbn [result_of]. split; [done|]. split; [cbn; lia|].
      replace (S (attempts st) + 0 - attempts st)%nat with 1%nat by lia.
      cbn [seq flat_map]. rewrite (attempt_events_throw _ _ Ho).
      replace (S (attempts st) <? max_attempts)%nat with false by cmp_lia.
      cbn. by rewrite <- app_assoc.
    + replace (Z.of_nat (S (S r)) - 1 =? 0)%Z with false by cmp_lia.
      destruct (IH f (backoff (catch_head e (record_fetch req st)))) as (IH1 & IH2 & IH3);
        cbn [attempts retries delay backoff catch_head record_fetch trace] in *; try lia.
      { rewrite Hdel, Nat2Z.inj_succ, Z.pow_succ_r; lia. }
      split; [done|]. split; [done|]. rewrite IH3.
      pose proof (window_bounds (S (attempts st)) (S r)) as Hb.
      replace (snd (window (S (attempts st)) (S r)) - attempts st)%nat
        with (S (snd (window (S (attempts st)) (S r)) - S (attempts st))) by lia.
      cbn [seq flat_map]. rewrite (attempt_events_throw _ _ Ho).
      replace (S (attempts st) <? max_attempts)%nat with true by cmp_lia.
      rewrite Hdel. by rewrite <- !app_assoc.
Qed.

Lemma window_last_attempt n r :
  (1 <= r)%nat -> fst (window n r) = result_of (outcome (snd (window n r) - 1)).
Proof.
  intros Hr. unfold RetryLoop.window at 1 2.
  destruct (List.find _ _) eqn:Hf; cbn [fst snd]; by rewrite ?Nat.sub_succ, ?Nat.sub_0_r.
Qed.

Lemma window_before_throw n r j :
  (n <= j < snd (window n r) - 1)%nat -> is_normal (outcome j) = false.
Proof.
  unfold RetryLoop.window. destruct (List.find _ _) eqn:Hf; cbn [snd]; intros Hj.
  - apply find_seq_first in Hf as (_ & _ & Hb). apply Hb. lia.
  - apply (find_seq_none _ _ _ Hf). lia.
Qed.

Lemma window_early_stop n r :
  (snd (window n r) < n + r)%nat -> is_normal (outcome (snd (window n r) - 1)) = true.
Proof.
  unfold RetryLoop.window. destruct (List.find _ _) eqn:Hf; cbn [snd]; [|lia].
  intros _. apply find_seq_first in Hf as (_ & Hi & _). by rewrite Nat.sub_succ, Nat.sub_0_r.
Qed.

Lemma fetch_count_attempts a k :
  fetch_count (flat_map attempt_events (seq a k)) = k.
Proof.
  revert a. induction k as [|k IH]; intros a; [done|].
  cbn [seq flat_map]. rewrite fetch_count_app, IH.
  unfold RetryLoop.attempt_events. fold (outcome a).
  destruct (outcome a); [done|]. by case_match.
Qed.

Lemma sleeps_attempt_events j :
  sleeps (attempt_events j) =
    if is_normal (outcome j) then []
    else if (S j <? max_attempts)%nat then [base_delay * 2 ^ Z.of_nat j]%Z else [].
Proof.
  unfold RetryLoop.attempt_events. fold (outcome j).
  destruct (outcome j); [done|]. cbn [is_normal negb]. by case_match.
Qed.

(** Every attempt of a run that throws before the last one sleeps. *)
Lemma sleeps_throwing_prefix a k :
  (a + k < max_attempts)%nat ->
  (forall j, (a <= j < a + k)%nat -> is_normal (outcome j) = false) ->
  sleeps (flat_map attempt_events (seq a k)) =
    map (fun j => base_delay * 2 ^ Z.of_nat j)%Z (seq a k).
Proof.
  revert a. induction k as [|k IH]; intros a Hk Hthrow; [done|].
  cbn [seq flat_map map]. rewrite sleeps_app, sleeps_attempt_events, Hthrow by lia.
  replace (S a <? max_attempts)%nat with true by cmp_lia.
  rewrite IH; [done|lia|]. intros j Hj. apply Hthrow. lia.
Qed.

(** ** The run of the loop *)

Abbreviation run := (run req process net).
Abbreviation spec_result := (spec_result process net).

Lemma run_reference :
  fst run = fst spec_result /\
  attempts (snd run) = snd spec_result /\
  trace (snd run) = flat_map attempt_events (seq 0 (snd spec_result)).
Proof.
  unfold RetryLoop.run, RetryLoop.spec_result.
  pose proof (loop_window max_attempts (retry_fuel init_state) init_state) as Hw.
  cbn [attempts trace init_state] in Hw. rewrite Nat.sub_0_r in Hw.
  apply Hw; try reflexivity; vm_compute; lia.
Qed.

Lemma find_seq_at (p : nat -> bool) a n i :
  (a <= i < a + n)%nat -> p i = true -> (forall j, (a <= j < i)%nat -> p j = false) ->
  List.find p (seq a n) = Some i.
Proof.
  revert a. induction n as [|n IH]; intros a Hi Hpi Hb; [lia|]. simpl.
  destruct (decide (a = i)) as [->|Hne]; [by rewrite Hpi|].
  rewrite Hb by lia. apply IH; [lia|done|]. intros j Hj. apply Hb. lia.
Qed.

(** A response that is neither ok nor transient makes the attempt throw,
    whatever its body. *)
Lemma try_attempt_client_error r :
  is_transient_status (status r) = false -> response_ok r = false ->
  is_normal (try_attempt process (Responded r)) = false.
Proof.
  intros Ht Hok. unfold try_attempt. rewrite Ht, Hok. cbn [negb].
  destruct (json_parse (body r)); [|done]. cbn.
  by destruct (api_error r a).
Qed.

Lemma find_seq_all_false (p : nat -> bool) a n :
  (forall j, (a <= j < a + n)%nat -> p j = false) -> List.find p (seq a n) = None.
Proof.
  revert a. induction n as [|n IH]; intros a Hp; [done|]. cbn.
  rewrite Hp by lia. apply IH. intros j Hj. apply Hp. lia.
Qed.

(** When all three attempts throw, the loop rethrows the third exception
    after three fetches. *)
Lemma run_all_throw (e : nat -> exn) :
  (forall j, (j < 3)%nat -> outcome j = Throw (e j)) ->
  fst run = Raised (e 2%nat) /\ fetch_count (trace (snd run)) = 3%nat.
Proof.
  intros He. destruct run_reference as (Hr & Ha & Ht).
  assert (Hw : spec_result = (Raised (e 2%nat), 3%nat)).
  { unfold RetryLoop.spec_result, RetryLoop.window.
    rewrite find_seq_all_false.
    - cbn. by rewrite He by lia.
    - intros j Hj. rewrite He by (unfold max_attempts in Hj; lia). done. }
  rewrite Hr, Ht, Hw, fetch_count_attempts. done.
Qed.

(** When the first attempt answers, the loop returns that answer after one
    fetch. *)
Lemma run_first_normal a :
  outcome 0 = Normal a -> fst run = Returned a /\ fetch_count (trace (snd run)) = 1%nat.
Proof.
  intros Ha. destruct run_reference as (Hr & _ & Ht).
  assert (Hw : spec_result = (Returned a, 1%nat)).
  { unfold RetryLoop.spec_result. exact (window_here 0 2 a Ha). }
  rewrite Hr, Ht, Hw, fetch_count_attempts. done.
Qed.

Lemma spec_result_bounds : (1 <= snd spec_result <= max_attempts)%nat.
Proof.
  pose proof (window_bounds 0 max_attempts ltac:(cbv; lia)).
  unfold RetryLoop.spec_result. unfold max_attempts in *. lia.
Qed.

Lemma run_last_attempt :
  fst run = result_of (outcome (attempts (snd run) - 1)).
Proof.
  destruct run_reference as (Hr & Ha & _). rewrite Hr, Ha.
  unfold RetryLoop.spec_result. apply (window_last_attempt 0 max_attempts); cbv; lia.
Qed.

(** C1. The retry loop computes its reference behaviour: the result of
    the first of the three attempts that does not throw (or of the third
    attempt), that many attempts, and the trace made of each attempt's
    fetch, warning and sleep. *)
Theorem run_matches_reference :
  fst run = fst spec_result /\
  attempts (snd run) = snd spec_result /\
  trace (snd run) = flat_map attempt_events (seq 0 (snd spec_result)).
Proof. exact run_reference. Qed.

Lemma run_fetch_bounds :
  (1 <= attempts (snd run) <= 3)%nat /\
  fetch_count (trace (snd run)) = attempts (snd run).
Proof.
  destruct run_reference as (_ & Ha & Ht). pose proof spec_result_bounds.
  rewrite Ht, Ha, fetch_count_attempts. unfold max_attempts in *. lia.
Qed.

(** C2. For all network answers, the loop makes between one and three
    attempts, and exactly one fetch per attempt. *)
Theorem run_attempts_bounded :
  (1 <= attempts (snd run) <= 3)%nat /\
  fetch_count (trace (snd run)) = attempts (snd run).
Proof. exact run_fetch_bounds. Qed.

Lemma run_early_stop :
  (attempts (snd run) < 3)%nat -> is_normal (outcome (attempts (snd run) - 1)) = true.
Proof.
  destruct run_reference as (_ & Ha & _). rewrite Ha. unfold RetryLoop.spec_result.
  intros Hn. apply window_early_stop. cbn [Nat.add]. exact Hn.
Qed.

(** C3. The result of the loop is the outcome of its last attempt; every
    earlier attempt threw, and when fewer than three attempts were made the
    last one did not throw. *)
Theorem run_result_is_last_attempt :
  let n := attempts (snd run) in
  fst run = result_of (outcome (n - 1)) /\
  (forall j, (j < n - 1)%nat -> is_normal (outcome j) = false) /\
  ((n < 3)%nat -> is_normal (outcome (n - 1)) = true).
Proof.
  cbn zeta. split; [apply run_last_attempt|]. split; [|apply run_early_stop].
  destruct run_reference as (_ & Ha & _). rewrite Ha. unfold RetryLoop.spec_result.
  intros j Hj. apply (window_before_throw 0 max_attempts). lia.
Qed.

Lemma run_sleeps :
  sleeps (trace (snd run)) =
    map (fun j => 1000 * 2 ^ Z.of_nat j)%Z (seq 0 (attempts (snd run) - 1)).
Proof.
  destruct run_reference as (_ & Ha & Ht). rewrite Ht, Ha.
  pose proof spec_result_bounds as Hb. unfold RetryLoop.spec_result in *.
  set (n := snd (window 0 max_attempts)) in *.
  assert (Hlast : sleeps (attempt_events (n - 1)) = []).
  { rewrite sleeps_attempt_events.
    destruct (decide (n = max_attempts)) as [Heq|Hlt].
    - rewrite Heq. by destruct (is_normal _).
    - unfold n in *. rewrite window_early_stop; [done|]. unfold max_attempts in *. lia. }
  replace n with (S (n - 1)) at 1 by lia.
  rewrite seq_S, flat_map_app, sleeps_app. cbn [flat_map Nat.add].
  rewrite app_nil_r, Hlast, app_nil_r.
  apply sleeps_throwing_prefix; [unfold max_attempts in *; lia|].
  intros j Hj. apply (window_before_throw 0 max_attempts). lia.
Qed.

(** C4. The delays slept double from 1000 ms: before attempt [j+1] the
    loop sleeps [1000 * 2^j] ms, and it never sleeps after its last
    attempt. *)
Theorem run_backoff_doubles :
  sleeps (trace (snd run)) =
    map (fun j => 1000 * 2 ^ Z.of_nat j)%Z (seq 0 (attempts (snd run) - 1)).
Proof. exact run_sleeps. Qed.

(** C5. The loop terminates with a value or an exception: the fall-through
    after [while] (which would return [undefined]) is unreachable, and the
    fuel [retry_fuel] is never exhausted. *)
Theorem run_terminates :
  (exists a, fst run = Returned a) \/ (exists e, fst run = Raised e).
Proof.
  rewrite run_last_attempt. destruct (outcome _); cbn; eauto.
Qed.

(** C6. When attempts [0 .. i-1] throw and attempt [i < 3] answers, the
    loop returns that answer after [i + 1] fetches, having slept
    [1000, ..., 1000 * 2^(i-1)] ms. *)
Theorem run_first_success i a :
  (i < 3)%nat ->
  (forall j, (j < i)%nat -> is_normal (outcome j) = false) ->
  outcome i = Normal a ->
  fst run = Returned a /\ fetch_count (trace (snd run)) = S i /\
  sleeps (trace (snd run)) = map (fun j => 1000 * 2 ^ Z.of_nat j)%Z (seq 0 i).
Proof.
  intros Hi Hb Ha.
  assert (Hw : spec_result = (Returned a, S i)).
  { unfold RetryLoop.spec_result, RetryLoop.window.
    rewrite (find_seq_at _ 0 max_attempts i); cbn [Nat.add]; try (unfold max_attempts; lia).
    - by rewrite Ha.
    - by rewrite Ha.
    - intros j Hj. apply Hb. lia. }
  destruct run_reference as (Hr & Hn & _).
  destruct run_fetch_bounds as (_ & Hf).
  rewrite run_sleeps, Hf, Hn, Hr, Hw. cbn. by rewrite Nat.sub_0_r.
Qed.

(** C7. A client error (a status that is neither 2xx, nor 429, nor 5xx,
    such as 403) on the first attempt does not end the call: the loop
    sleeps 1000 ms and fetches again.  The specification asks for an
    immediate failure after one call. *)
Theorem client_error_retried r :
  net 0 = Responded r ->
  is_transient_status (status r) = false ->
  response_ok r = false ->
  (2 <= fetch_count (trace (snd run)))%nat /\
  head (sleeps (trace (snd run))) = Some 1000%Z.
Proof.
  intros Hnet Ht Hok.
  assert (H0 : is_normal (outcome 0) = false).
  { unfold RetryLoop.outcome. rewrite Hnet. by apply try_attempt_client_error. }
  destruct run_fetch_bounds as (Hb & Hf). rewrite Hf.
  pose proof run_early_stop as Hlast.
  assert (Hge : (2 <= attempts (snd run))%nat).
  { destruct (decide (attempts (snd run) = 1%nat)) as [E|]; [|lia].
    rewrite E in Hlast. cbn in Hlast. rewrite H0 in Hlast. discriminate (Hlast ltac:(lia)). }
  split; [done|]. rewrite run_sleeps.
  destruct (attempts (snd run) - 1)%nat as [|k] eqn:E; [lia|]. done.
Qed.

(** C9. When every attempt is answered with a status the specification
    calls transient (429, or 500 to 599), the call fetches three times,
    sleeps 1000 and then 2000 ms, and rethrows the server error built from
    the third response ("Server error (status N). Retrying..."). *)
Theorem run_transient_exhausted (rs : nat -> response) :
  (forall i, (i < 3)%nat -> net i = Responded (rs i)) ->
  (forall i, (i < 3)%nat -> status (rs i) = 429%Z \/ (500 <= status (rs i) < 600)%Z) ->
  fst run = Raised (server_error (rs 2%nat)) /\
  fetch_count (trace (snd run)) = 3%nat /\
  sleeps (trace (snd run)) = [1000; 2000]%Z.
Proof.
  intros Hnet Hst.
  destruct (run_all_throw (fun j => server_error (rs j))) as (Hr & Hf).
  { intros j Hj. unfold RetryLoop.outcome, try_attempt. rewrite Hnet by done.
    replace (is_transient_status (status (rs j))) with true; [done|].
    unfold is_transient_status. destruct (Hst j Hj) as [->|Hb]; [done|].
    symmetry. apply orb_true_iff. right. apply andb_true_iff. split; cmp_lia. }
  split; [done|]. split; [done|].
  destruct run_fetch_bounds as (_ & Hfa). rewrite run_sleeps, <- Hfa, Hf. reflexivity.
Qed.

End LoopProofs.

(** ** Concrete runs *)

Definition demo_request : request :=
  {| req_url := "https://example.invalid"; req_method := "POST";
     req_content_type := "application/json"; req_body := "{}" |}.

Definition rate_limited : response := {| status := 429; statusText := "Too Many Requests"; body := "{}" |}.
Definition forbidden : response :=
  {| status := 403; statusText := "Forbidden"; body := "{" +s+ quoted "error" +s+ ":{" +s+ quoted "message" +s+ ":" +s+ quoted "denied" +s+ "}}" |}.
Definition unavailable : response := {| status := 503; statusText := "Service Unavailable"; body := "" |}.
Definition ok_body : response := {| status := 200; statusText := "OK"; body := "{" +s+ quoted "n" +s+ ":1}" |}.

(** 429, 429, then 200: the answer of the third attempt, three fetches,
    sleeps of 1000 and 2000 ms. *)
Lemma run_first_success_witness :
  fst (run demo_request (fun v => Normal v)
         (fun i => if (i <? 2)%nat then Responded rate_limited else Responded ok_body))
    = Returned (JObj [("n", JNum (inject_Z 1))]) /\
  fetch_count (trace (snd (run demo_request (fun v => Normal v)
         (fun i => if (i <? 2)%nat then Responded rate_limited else Responded ok_body)))) = 3%nat /\
  sleeps (trace (snd (run demo_request (fun v => Normal v)
         (fun i => if (i <? 2)%nat then Responded rate_limited else Responded ok_body))))
    = [1000; 2000]%Z.
Proof.
  apply (run_first_success demo_request (fun v => Normal v) _ 2 (JObj [("n", JNum (inject_Z 1))])).
  - lia.
  - intros j Hj. destruct j as [|[|]]; [reflexivity|reflexivity|lia].
  - vm_compute. reflexivity.
Defined.

(** A 403 on every attempt: the loop fetches three times and rethrows the
    service's message. *)
Lemma client_error_retried_witness :
  (2 <= fetch_count (trace (snd (run demo_request (fun v => Normal v)
                                      (fun _ => Responded forbidden)))))%nat /\
  head (sleeps (trace (snd (run demo_request (fun v => Normal v)
                                 (fun _ => Responded forbidden))))) = Some 1000%Z.
Proof.
  apply (client_error_retried demo_request (fun v => Normal v) _ forbidden);
    reflexivity.
Defined.

(** 429, 503, 429: three fetches, sleeps of 1000 and 2000 ms, and the
    server error of the last 429. *)
Lemma run_transient_exhausted_witness :
  fst (run demo_request (fun v => Normal v)
         (fun i => if (i =? 1)%nat then Responded unavailable else Responded rate_limited))
    = Raised (server_error rate_limited) /\
  fetch_count (trace (snd (run demo_request (fun v => Normal v)
         (fun i => if (i =? 1)%nat then Responded unavailable else Responded rate_limited)))) = 3%nat /\
  sleeps (trace (snd (run demo_request (fun v => Normal v)
         (fun i => if (i =? 1)%nat then Responded unavailable else Responded rate_limited))))
    = [1000; 2000]%Z.
Proof.
  apply (run_transient_exhausted demo_request (fun v => Normal v) _
           (fun i => if (i =? 1)%nat then unavailable else rate_limited)).
  - intros i Hi. destruct i as [|[|[|]]]; [reflexivity..|lia].
  - intros i Hi. destruct i as [|[|[|]]]; cbn; [left; reflexivity|right; lia|left; reflexivity|lia].
Defined.

End RetryLoop.
