(* ===== verification/RetrySpec.v ===== *)
(** * RetrySpec: the retry state machine of the specification

    The specification describes the retry behaviour as a state machine
    with states Attempting, BackingOff, Succeeded and FailedTerminal and a
    transition on the outcome of each attempt.  [Module RetryMachine]
    states it as a labelled step relation over the outcomes of the
    attempts (the label is what the environment observes: fetch, warning,
    sleep) and proves that the loop of [Executor.RetryLoop] refines it:
    every run of the loop ends in a final state of the machine (the loop's
    fall-through and an exhausted fuel have no machine state), reached by a
    complete run of the machine with the same trace.  The refinement is
    proved by induction on the attempts left, one machine step per fetch
    and one per sleep. *)

From S2P Require Import Prelude JsValue Json Executor.

Module RetryMachine.

Import RetryLoop.

Inductive rstate (A : Type) :=
| Attempting (i : nat) (left : nat) (d : Z)
| BackingOff (i : nat) (left : nat) (d : Z)
| Succeeded (a : A)
| FailedTerminal (e : exn).
Arguments Attempting {A} i left d.
Arguments BackingOff {A} i left d.
Arguments Succeeded {A} a.
Arguments FailedTerminal {A} e.

Section Machine.

Context {A : Type} (req : request) (outcome : nat -> completion A).

(** One transition: attempt [i] with [left] attempts allowed, or the sleep
    between two attempts. *)
Inductive mstep : rstate A -> list event -> rstate A -> Prop :=
| m_success i k d a :
    outcome i = Normal a ->
    mstep (Attempting i (S k) d) [EvFetch req] (Succeeded a)
| m_fail_last i d e :
    outcome i = Throw e ->
    mstep (Attempting i 1 d) [EvFetch req; EvWarn (exn_message e)] (FailedTerminal e)
| m_fail i k d e :
    outcome i = Throw e ->
    mstep (Attempting i (S (S k)) d) [EvFetch req; EvWarn (exn_message e)]
          (BackingOff (S i) (S k) d)
| m_sleep i k d :
    mstep (BackingOff i k d) [EvSleep d] (Attempting i k (d * 2)).

Inductive mstar : rstate A -> list event -> rstate A -> Prop :=
| mstar_refl s : mstar s [] s
| mstar_step s1 l1 s2 l2 s3 : mstep s1 l1 s2 -> mstar s2 l2 s3 -> mstar s1 (l1 ++ l2) s3.

Definition machine_init : rstate A := Attempting 0 max_attempts base_delay.

Definition final (s : rstate A) : bool :=
  match s with Succeeded _ | FailedTerminal _ => true | _ => false end.

Lemma final_no_step s l s' : final s = true -> ~ mstep s l s'.
Proof. intros Hf Hs. destruct Hs; discriminate. Qed.

Lemma mstar_one s l s' : mstep s l s' -> mstar s l s'.
Proof. intros H. rewrite <- (app_nil_r l). eauto using mstar. Qed.

End Machine.

#[export] Hint Constructors mstep mstar : psych.

(** ** The loop refines the machine *)

Section Refinement.

Context `{JsonBuiltins} {A : Type}.
Context (req : request) (process : jsval -> completion A) (net : nat -> fetch_outcome).

Abbreviation outcome := (RetryLoop.outcome process net).
Abbreviation loop := (RetryLoop.loop req process net).

(** The final machine state a result of the loop stands for: none for the
    fall-through after [while] and for an exhausted fuel. *)
Definition state_of (r : loop_result A) : option (rstate A) :=
  match r with
  | Returned a => Some (Succeeded a)
  | Raised e => Some (FailedTerminal e)
  | FellThrough | OutOfFuel => None
  end.

Lemma loop_refines r f st :
  (1 <= r <= f)%nat ->
  retries st = Z.of_nat r ->
  exists tr s,
    state_of (fst (loop f st)) = Some s /\ final s = true /\
    trace (snd (loop f st)) = trace st ++ tr /\
    mstar req outcome (Attempting (attempts st) r (delay st)) tr s.
Proof.
  revert f st. induction r as [|r IH]; intros f st Hr Hret; [lia|].
  destruct f as [|f]; [lia|]. simpl loop.
  rewrite Hret. replace (0 <? Z.of_nat (S r))%Z with true by cmp_lia.
  fold (outcome (attempts st)).
  destruct (outcome (attempts st)) as [a|e] eqn:Ho; cbn [fst snd].
  - exists [EvFetch req], (Succeeded a). do 3 (split; [done|]). apply mstar_one. by constructor.
  - cbn [retries catch_head record_fetch].
    destruct r as [|r].
    + replace (Z.of_nat 1 - 1 =? 0)%Z with true by cmp_lia.
      exists [EvFetch req; EvWarn (exn_message e)], (FailedTerminal e).
      do 2 (split; [done|]).
      split; [cbn [snd trace catch_head record_fetch]; by rewrite <- app_assoc|].
      apply mstar_one. by constructor.
    + replace (Z.of_nat (S (S r)) - 1 =? 0)%Z with false by cmp_lia.
      destruct (IH f (backoff (catch_head e (record_fetch req st)))) as (tr & s & Hs & Hf & Htr & Hm);
        cbn [retries backoff catch_head record_fetch] in *; try lia.
      exists ([EvFetch req; EvWarn (exn_message e)] ++ [EvSleep (delay st)] ++ tr), s.
      do 2 (split; [done|]).
      split; [rewrite Htr; cbn [trace backoff catch_head record_fetch]; by rewrite <- !app_assoc|].
      econstructor; [by constructor|]. econstructor; [constructor|]. exact Hm.
Qed.


End Refinement.

End RetryMachine.
