(* ===== verification/Normalizer.v ===== *)
(** * Normalizer: [processApiResponse]

    [processApiResponse] (src/index.js, lines 199-226) turns the parsed
    body of a grounded-search answer into [{ text, sources }]: it selects
    [result.candidates?.[0]], throws "Query blocked: ..." or "Invalid API
    response structure." when there is none, throws when the finish reason
    is SAFETY or RECITATION, reads the summary text of the first part
    ([|| null]), and maps the grounding attributions to [{uri, title}]
    objects, keeping those whose [uri] and [title] are both truthy.

    [Module ProcessApiResponse] translates it step by step in the
    completion monad: a read of a property of [null] or [undefined] and a
    [.map] on a value that is not an array throw a [TypeError], as they do
    in the browser. *)

From S2P Require Import Prelude JsValue.

Module ProcessApiResponse.

(** The object [{ uri: attr.web?.uri, title: attr.web?.title }]. *)
Record source := { uri : jsval; title : jsval }.

(** The object [{ text, sources }]. *)
Record grounded := { text : jsval; sources : list source }.

(** [const candidate = result.candidates?.[0];] *)
Definition first_candidate (result : jsval) : completion jsval :=
  cs ← get result "candidates";
  oget cs "0".

Definition invalid_structure : exn := Error "Invalid API response structure.".

(** [if (!candidate) { if (result.promptFeedback &&
    result.promptFeedback.blockReason) throw ...; throw ...; }] *)
Definition check_candidate (result candidate : jsval) : completion unit :=
  if truthy candidate then mret tt
  else
    pf ← get result "promptFeedback";
    if truthy pf then
      pf' ← get result "promptFeedback";
      br ← get pf' "blockReason";
      if truthy br then Throw (Error ("Query blocked: " +s+ to_string br))
      else Throw invalid_structure
    else Throw invalid_structure.

Definition safety_blocked : exn := Error "Response blocked for safety or recitation reasons.".

(** [candidate.finishReason === 'SAFETY' || candidate.finishReason === 'RECITATION'] *)
Definition finish_blocked (candidate : jsval) : completion bool :=
  fr ← get candidate "finishReason";
  if strict_eq_str fr "SAFETY" then mret true
  else
    fr' ← get candidate "finishReason";
    mret (strict_eq_str fr' "RECITATION").

(** [candidate.content?.parts?.[0]?.text || null] *)
Definition summary_text (candidate : jsval) : completion jsval :=
  c ← get candidate "content";
  p ← oget c "parts";
  x ← oget p "0";
  t ← oget x "text";
  mret (js_or t JNull).

(** [attr => ({ uri: attr.web?.uri, title: attr.web?.title })] *)
Definition to_source (attr : jsval) : completion source :=
  w ← get attr "web";
  u ← oget w "uri";
  w' ← get attr "web";
  t ← oget w' "title";
  mret {| uri := u; title := t |}.

(** [source => source.uri && source.title] *)
Definition keep_source (s : source) : bool := truthy (uri s) && truthy (title s).

(** Lines 213-223: the sources of the grounding metadata, if any. *)
Definition grounding_sources (candidate : jsval) : completion (list source) :=
  metadata ← get candidate "groundingMetadata";
  if truthy metadata then
    ga ← get metadata "groundingAttributions";
    if truthy ga then
      ga' ← get metadata "groundingAttributions";
      srcs ← js_map "metadata.groundingAttributions" ga' to_source;
      mret (List.filter keep_source srcs)
    else mret []
  else mret [].

Definition processApiResponse (result : jsval) : completion grounded :=
  candidate ← first_candidate result;
  _ ← check_candidate result candidate;
  finish_blocked candidate ≫= λ blocked : bool,
  if blocked then Throw safety_blocked
  else
    t ← summary_text candidate;
    srcs ← grounding_sources candidate;
    mret {| text := t; sources := srcs |}.

End ProcessApiResponse.

Module NormalizerProofs.

Import ProcessApiResponse.

Lemma check_candidate_truthy result c : truthy c = true -> check_candidate result c = Normal tt.
Proof. unfold check_candidate. by intros ->. Qed.

(** The steps of a normal run of [processApiResponse]. *)
Lemma processApiResponse_Normal result g :
  processApiResponse result = Normal g ->
  exists c, first_candidate result = Normal c /\ truthy c = true /\
    finish_blocked c = Normal false /\
    summary_text c = Normal (text g) /\ grounding_sources c = Normal (sources g).
Proof.
  unfold processApiResponse. intros H. completion_inv H.
  destruct (truthy a) eqn:Ht.
  - injection H as <-. exists a. repeat split; done.
  - unfold check_candidate in E0. rewrite Ht in E0. completion_inv E0.
Qed.

Lemma grounding_sources_kept c l :
  grounding_sources c = Normal l -> forallb keep_source l = true.
Proof.
  unfold grounding_sources. intros H. completion_inv H; injection H as <-; try done.
  by apply forallb_filter.
Qed.

Lemma finish_blocked_reason c reason :
  get c "finishReason" = Normal (JStr reason) ->
  finish_blocked c = Normal (String.eqb reason "SAFETY" || String.eqb reason "RECITATION").
Proof.
  intros Hf. unfold finish_blocked. rewrite Hf. jsimpl. cbn [strict_eq_str].
  by destruct (String.eqb reason "SAFETY").
Qed.

(** The pure reading [v?.k]: it never throws. *)
Definition pget (v : jsval) (k : string) : jsval :=
  match oget v k with Normal w => w | Throw _ => JUndef end.

Lemma oget_pget v k : oget v k = Normal (pget v k).
Proof. unfold pget. by destruct (oget_Normal v k) as [w ->]. Qed.

(** The source an attribution stands for, read without side conditions. *)
Definition source_of (attr : jsval) : source :=
  {| uri := pget (pget attr "web") "uri"; title := pget (pget attr "web") "title" |}.

Lemma to_source_not_nullish attr :
  nullish attr = false -> to_source attr = Normal (source_of attr).
Proof.
  intros Hn. unfold to_source, source_of.
  rewrite <- (oget_not_nullish attr "web" Hn).
  unfold mbind, completion_bind, mret, completion_ret.
  by repeat (rewrite oget_pget; cbv beta iota).
Qed.

(** C10. Every source of a normal result of [processApiResponse] has a
    truthy [uri] and a truthy [title] (for strings: not empty). *)
Theorem processApiResponse_sources_truthy result g :
  processApiResponse result = Normal g ->
  Forall (fun s => truthy (uri s) = true /\ truthy (title s) = true) (sources g).
Proof.
  intros H. destruct (processApiResponse_Normal _ _ H) as (c & _ & _ & _ & _ & Hs).
  apply grounding_sources_kept in Hs. apply Forall_forall. intros s Hin.
  eapply forallb_forall in Hs; [|apply list_elem_of_In, Hin]. by apply andb_true_iff in Hs.
Qed.

(** C11. When the first candidate's finish reason is "SAFETY" or
    "RECITATION", [processApiResponse] throws "Response blocked for safety
    or recitation reasons.", whatever text the candidate holds. *)
Theorem processApiResponse_safety_blocked result c reason :
  first_candidate result = Normal c -> truthy c = true ->
  get c "finishReason" = Normal (JStr reason) ->
  reason = "SAFETY" \/ reason = "RECITATION" ->
  processApiResponse result = Throw safety_blocked.
Proof.
  intros Hc Ht Hf Hr. unfold processApiResponse. rewrite Hc. jsimpl.
  rewrite check_candidate_truthy by done. jsimpl.
  rewrite (finish_blocked_reason _ _ Hf). by destruct Hr as [->| ->].
Qed.

(** C12. Without a first candidate, [processApiResponse] throws "Query
    blocked: <reason>" when [promptFeedback.blockReason] is truthy, and
    "Invalid API response structure." otherwise. *)
Theorem processApiResponse_no_candidate result c :
  first_candidate result = Normal c -> truthy c = false ->
  processApiResponse result =
    match get result "promptFeedback" with
    | Throw e => Throw e
    | Normal pf =>
        if truthy pf then
          match get pf "blockReason" with
          | Throw e => Throw e
          | Normal br =>
              if truthy br then Throw (Error ("Query blocked: " +s+ to_string br))
              else Throw invalid_structure
          end
        else Throw invalid_structure
    end.
Proof.
  intros Hc Ht. unfold processApiResponse. rewrite Hc. jsimpl.
  unfold check_candidate. rewrite Ht. jsimpl.
  destruct (get result "promptFeedback") as [pf|e]; jsimpl; [|done].
  destruct (truthy pf); jsimpl; [|done].
  destruct (get pf "blockReason") as [br|e]; jsimpl; [|done].
  by destruct (truthy br).
Qed.

(** C13. The grounded sources are the attributions mapped to their
    [web.uri] and [web.title], filtered on both being truthy, in the
    order received. *)
Theorem grounding_sources_filter_map c metadata attrs :
  get c "groundingMetadata" = Normal metadata -> truthy metadata = true ->
  get metadata "groundingAttributions" = Normal (JArr attrs) ->
  Forall (fun a => nullish a = false) attrs ->
  grounding_sources c = Normal (List.filter keep_source (map source_of attrs)).
Proof.
  intros Hm Ht Ha Hall. unfold grounding_sources. rewrite Hm. jsimpl.
  rewrite Ht, Ha. jsimpl. cbn [js_map].
  rewrite (mapM_Normal _ source_of); [done|].
  intros x Hx. apply to_source_not_nullish.
  rewrite Forall_forall in Hall. by apply Hall, list_elem_of_In.
Qed.

(** C14. One [null] among the attributions makes [processApiResponse]
    throw (a [TypeError] reading [web]), even when the candidate has a
    summary and other usable sources: the entry is not dropped. *)
Theorem null_attribution_fails_response result c metadata attrs :
  first_candidate result = Normal c -> truthy c = true ->
  finish_blocked c = Normal false ->
  get c "groundingMetadata" = Normal metadata -> truthy metadata = true ->
  get metadata "groundingAttributions" = Normal (JArr attrs) ->
  In JNull attrs ->
  is_normal (processApiResponse result) = false.
Proof.
  intros Hc Ht Hf Hm Htm Ha Hin.
  unfold processApiResponse. rewrite Hc. jsimpl. rewrite check_candidate_truthy by done.
  jsimpl. rewrite Hf. jsimpl. destruct (summary_text c); jsimpl; [|done].
  unfold grounding_sources. rewrite Hm. jsimpl. rewrite Htm, Ha. jsimpl. cbn [js_map].
  pose proof (mapM_not_normal to_source attrs JNull Hin eq_refl) as Hmap.
  by destruct (mapM to_source attrs).
Qed.

(** ** Concrete answers *)

Definition web (u t : option string) : jsval :=
  JObj [("web", JObj ((match u with Some x => [("uri", JStr x)] | None => [] end) ++
                      (match t with Some x => [("title", JStr x)] | None => [] end)))].

(** The attributions of the specification's example: the second one has no
    [uri]. *)
Definition example_attrs : list jsval := [web (Some "a") (Some "A"); web None (Some "B")].

Definition example_candidate (finish : string) : jsval :=
  JObj [("content", JObj [("parts", JArr [JObj [("text", JStr "summary")]])]);
        ("finishReason", JStr finish);
        ("groundingMetadata", JObj [("groundingAttributions", JArr example_attrs)])].

Definition example_result (finish : string) : jsval :=
  JObj [("candidates", JArr [example_candidate finish])].

Lemma processApiResponse_sources_truthy_witness :
  Forall (fun s => truthy (uri s) = true /\ truthy (title s) = true)
    (sources {| text := JStr "summary"; sources := [{| uri := JStr "a"; title := JStr "A" |}] |}).
Proof.
  apply (processApiResponse_sources_truthy (example_result "STOP")). vm_compute. reflexivity.
Defined.

Lemma processApiResponse_safety_blocked_witness :
  processApiResponse (example_result "SAFETY") = Throw safety_blocked.
Proof.
  apply (processApiResponse_safety_blocked _ (example_candidate "SAFETY") "SAFETY");
    [reflexivity|reflexivity|reflexivity|by left].
Defined.

Lemma processApiResponse_no_candidate_witness :
  processApiResponse (JObj [("promptFeedback", JObj [("blockReason", JStr "OTHER")])]) =
    Throw (Error "Query blocked: OTHER").
Proof.
  rewrite (processApiResponse_no_candidate _ JUndef); reflexivity.
Defined.

(** The specification's example: the entry without [uri] is dropped. *)
Lemma grounding_sources_filter_map_witness :
  grounding_sources (example_candidate "STOP") =
    Normal [{| uri := JStr "a"; title := JStr "A" |}].
Proof.
  rewrite (grounding_sources_filter_map _ (JObj [("groundingAttributions", JArr example_attrs)])
             example_attrs); try reflexivity.
  repeat constructor.
Defined.

Lemma null_attribution_fails_response_witness :
  is_normal (processApiResponse
    (JObj [("candidates", JArr [JObj [("groundingMetadata",
              JObj [("groundingAttributions", JArr [web (Some "a") (Some "A"); JNull])])]])])) = false.
Proof.
  apply (null_attribution_fails_response _
           (JObj [("groundingMetadata",
              JObj [("groundingAttributions", JArr [web (Some "a") (Some "A"); JNull])])])
           (JObj [("groundingAttributions", JArr [web (Some "a") (Some "A"); JNull])])
           [web (Some "a") (Some "A"); JNull]); try reflexivity.
  right; left; reflexivity.
Defined.

End NormalizerProofs.
