(* ===== verification/Dom.v ===== *)
(** * Dom: the elements of the page the script writes

    The script keeps references to elements of its page (lines 35-39,
    87-96, 364-370) and changes their class lists ([classList.add] and
    [classList.remove], the classes [hidden] and [flex]), their
    [textContent], their [innerHTML], their children, the [onclick] of the
    share button, the [disabled] flag of the "Learn More" button and the
    [<option>]s of the factor selector; it reads the [value] of the search
    input and of the factor selector.

    [Module Dom] models the page as a map from element id to element
    (stdpp's [gmap]); an update of an element is [alter] at its id.  The
    reads ([vis], [text_of], [html_of], ...) are rewritten through the
    updates by the [psych_rw] database ([page_simpl]) or by computing the
    lookups of literal ids ([page_lookup]).  The page the HTML serves
    declares every id the script uses; [present] says an id is there. *)

From S2P Require Import Prelude JsValue Normalizer.
From stdpp Require Import gmap.

Module Dom.

Import ProcessApiResponse.

(** One [<li>] of [#sources-list]: the link's [href], and the texts of its
    title and uri paragraphs. *)
Record source_item := { item_href : string; item_title : string; item_uri : string }.

(** What the share button's [onclick] closure captures: the summary and
    the sources of the answer it was built for. *)
Record share_closure := { share_summary : jsval; share_sources : list source }.

Record element := {
  classes : gset string;
  textContent : string;
  innerHTML : string;
  children : list source_item;
  onclick : option share_closure;
  value : string;
  disabled : bool;
  options : list (string * string)
}.

Abbreviation dom := (gmap string element).

Definition visible (e : element) : bool := bool_decide ("hidden" ∉ classes e).

(** ** Updates of one element *)

Definition with_classes (f : gset string -> gset string) (e : element) : element :=
  {| classes := f (classes e); textContent := textContent e; innerHTML := innerHTML e;
     children := children e; onclick := onclick e; value := value e; disabled := disabled e;
     options := options e |}.

Definition with_text (t : string) (e : element) : element :=
  {| classes := classes e; textContent := t; innerHTML := innerHTML e;
     children := children e; onclick := onclick e; value := value e; disabled := disabled e;
     options := options e |}.

Definition with_html (h : string) (e : element) : element :=
  {| classes := classes e; textContent := textContent e; innerHTML := h;
     children := children e; onclick := onclick e; value := value e; disabled := disabled e;
     options := options e |}.

Definition with_children (l : list source_item) (e : element) : element :=
  {| classes := classes e; textContent := textContent e; innerHTML := innerHTML e;
     children := l; onclick := onclick e; value := value e; disabled := disabled e;
     options := options e |}.

Definition with_onclick (h : option share_closure) (e : element) : element :=
  {| classes := classes e; textContent := textContent e; innerHTML := innerHTML e;
     children := children e; onclick := h; value := value e; disabled := disabled e;
     options := options e |}.

Definition with_disabled (b : bool) (e : element) : element :=
  {| classes := classes e; textContent := textContent e; innerHTML := innerHTML e;
     children := children e; onclick := onclick e; value := value e; disabled := b;
     options := options e |}.

Definition with_options (l : list (string * string)) (e : element) : element :=
  {| classes := classes e; textContent := textContent e; innerHTML := innerHTML e;
     children := children e; onclick := onclick e; value := value e; disabled := disabled e;
     options := l |}.

Definition with_value (v : string) (e : element) : element :=
  {| classes := classes e; textContent := textContent e; innerHTML := innerHTML e;
     children := children e; onclick := onclick e; value := v; disabled := disabled e;
     options := options e |}.

(** ** Updates of the page *)

(** [el.classList.add(c)] and [el.classList.remove(c)] *)
Definition add_class (id c : string) (d : dom) : dom := alter (with_classes (fun s => {[c]} ∪ s)) id d.
Definition remove_class (id c : string) (d : dom) : dom := alter (with_classes (fun s => s ∖ {[c]})) id d.
(** [el.textContent = t], [el.innerHTML = h] *)
Definition set_text (id t : string) (d : dom) : dom := alter (with_text t) id d.
Definition set_html (id h : string) (d : dom) : dom := alter (with_html h) id d.
(** [el.innerHTML = ''] followed by one [appendChild] per item *)
Definition set_children (id : string) (l : list source_item) (d : dom) : dom :=
  alter (with_children l) id d.
Definition set_onclick (id : string) (h : option share_closure) (d : dom) : dom :=
  alter (with_onclick h) id d.
(** [el.disabled = b] *)
Definition set_disabled (id : string) (b : bool) (d : dom) : dom := alter (with_disabled b) id d.
(** [el.value = v]; for a [<select>], also the choice of an option. *)
Definition set_value (id v : string) (d : dom) : dom := alter (with_value v) id d.
(** The [<option>]s of a [<select>], as (value, text) pairs: its
    [innerHTML] set to one option and one [appendChild] per further one. *)
Definition set_options (id : string) (l : list (string * string)) (d : dom) : dom :=
  alter (with_options l) id d.

(** ** Reads *)

Definition present (id : string) (d : dom) : bool :=
  match d !! id with Some _ => true | None => false end.
Definition vis (id : string) (d : dom) : bool :=
  match d !! id with Some e => visible e | None => false end.
Definition text_of (id : string) (d : dom) : option string := textContent <$> d !! id.
Definition html_of (id : string) (d : dom) : option string := innerHTML <$> d !! id.
Definition children_of (id : string) (d : dom) : option (list source_item) := children <$> d !! id.
Definition onclick_of (id : string) (d : dom) : option (option share_closure) := onclick <$> d !! id.
Definition disabled_of (id : string) (d : dom) : option bool := disabled <$> d !! id.
Definition options_of (id : string) (d : dom) : option (list (string * string)) := options <$> d !! id.

(** ** Reads through updates *)

Lemma lookup_alter_string (f : element -> element) (id id' : string) (d : dom) :
  alter f id' d !! id = if String.eqb id id' then f <$> d !! id else d !! id.
Proof.
  destruct (String.eqb_spec id id') as [->|Hne].
  - apply lookup_alter_eq.
  - by apply lookup_alter_ne.
Qed.

Lemma value_alter_keep f (id id' : string) (d : dom) :
  (forall e, value (f e) = value e) -> value <$> alter f id' d !! id = value <$> d !! id.
Proof.
  intros Hf. rewrite lookup_alter_string.
  destruct (String.eqb id id'); [|done]. destruct (d !! id); cbn; [by rewrite Hf|done].
Qed.

Lemma present_alter f id id' d : present id (alter f id' d) = present id d.
Proof.
  unfold present. rewrite lookup_alter_string.
  destruct (String.eqb id id'); [|done]. by destruct (d !! id).
Qed.

Lemma present_lookup id d : present id d = true -> exists e, d !! id = Some e.
Proof. unfold present. destruct (d !! id); [eauto|discriminate]. Qed.

(** An update that keeps the class list keeps the visibility. *)
Lemma vis_alter_keep f id id' d :
  (forall e, classes (f e) = classes e) -> vis id (alter f id' d) = vis id d.
Proof.
  intros Hf. unfold vis, visible. rewrite lookup_alter_string.
  destruct (String.eqb id id'); [|done]. destruct (d !! id); cbn; [by rewrite Hf|done].
Qed.

Lemma text_alter_keep f id id' d :
  (forall e, textContent (f e) = textContent e) -> text_of id (alter f id' d) = text_of id d.
Proof.
  intros Hf. unfold text_of. rewrite lookup_alter_string.
  destruct (String.eqb id id'); [|done]. destruct (d !! id); cbn; [by rewrite Hf|done].
Qed.

Lemma html_alter_keep f id id' d :
  (forall e, innerHTML (f e) = innerHTML e) -> html_of id (alter f id' d) = html_of id d.
Proof.
  intros Hf. unfold html_of. rewrite lookup_alter_string.
  destruct (String.eqb id id'); [|done]. destruct (d !! id); cbn; [by rewrite Hf|done].
Qed.

Lemma disabled_alter_keep f id id' d :
  (forall e, disabled (f e) = disabled e) -> disabled_of id (alter f id' d) = disabled_of id d.
Proof.
  intros Hf. unfold disabled_of. rewrite lookup_alter_string.
  destruct (String.eqb id id'); [|done]. destruct (d !! id); cbn; [by rewrite Hf|done].
Qed.

Lemma disabled_of_set_disabled id id' b d :
  disabled_of id (set_disabled id' b d) =
    if String.eqb id id' then (fun _ => b) <$> d !! id else disabled_of id d.
Proof.
  unfold disabled_of, set_disabled. rewrite lookup_alter_string.
  destruct (String.eqb id id'); [|done]. by destruct (d !! id).
Qed.

Lemma vis_add_class id id' c d :
  vis id (add_class id' c d) =
    if String.eqb id id' && String.eqb c "hidden" then false else vis id d.
Proof.
  unfold vis, add_class. rewrite lookup_alter_string.
  destruct (String.eqb_spec id id') as [<-|Hne]; [|done].
  destruct (d !! id) as [e|]; cbn; [|by case_match].
  unfold visible, with_classes; cbn.
  destruct (String.eqb_spec c "hidden") as [->|Hc].
  - apply bool_decide_eq_false_2. set_solver.
  - apply bool_decide_ext. set_solver.
Qed.

Lemma vis_remove_class id id' c d :
  vis id (remove_class id' c d) =
    if String.eqb id id' && String.eqb c "hidden" then present id d else vis id d.
Proof.
  unfold vis, present, remove_class. rewrite lookup_alter_string.
  destruct (String.eqb_spec id id') as [<-|Hne]; [|done].
  destruct (d !! id) as [e|]; cbn; [|by case_match].
  unfold visible, with_classes; cbn.
  destruct (String.eqb_spec c "hidden") as [->|Hc].
  - apply bool_decide_eq_true_2. set_solver.
  - apply bool_decide_ext. set_solver.
Qed.

Lemma text_of_set_text id id' t d :
  text_of id (set_text id' t d) =
    if String.eqb id id' then (fun _ => t) <$> d !! id else text_of id d.
Proof.
  unfold text_of, set_text. rewrite lookup_alter_string.
  destruct (String.eqb id id'); [|done]. by destruct (d !! id).
Qed.

Lemma html_of_set_html id id' h d :
  html_of id (set_html id' h d) =
    if String.eqb id id' then (fun _ => h) <$> d !! id else html_of id d.
Proof.
  unfold html_of, set_html. rewrite lookup_alter_string.
  destruct (String.eqb id id'); [|done]. by destruct (d !! id).
Qed.

Lemma text_of_set_text_same id t d :
  present id d = true -> text_of id (set_text id t d) = Some t.
Proof. intros Hp. rewrite text_of_set_text, String.eqb_refl. by destruct (present_lookup _ _ Hp) as [e ->]. Qed.

Lemma value_set_value_same id v d :
  present id d = true -> value <$> set_value id v d !! id = Some v.
Proof. intros Hp. unfold set_value. rewrite lookup_alter_eq. by destruct (present_lookup _ _ Hp) as [e ->]. Qed.

Lemma disabled_of_set_disabled_same id b d :
  present id d = true -> disabled_of id (set_disabled id b d) = Some b.
Proof. intros Hp. rewrite disabled_of_set_disabled, String.eqb_refl. by destruct (present_lookup _ _ Hp) as [e ->]. Qed.

Lemma visible_remove_hidden e : visible (with_classes (fun s => s ∖ {["hidden"]}) e) = true.
Proof. unfold visible, with_classes. cbn. apply bool_decide_eq_true_2. set_solver. Qed.

Section Keep.
Context (id id' : string) (d : dom).
Lemma present_add_class c : present id (add_class id' c d) = present id d.
Proof. apply present_alter. Qed.
Lemma present_remove_class c : present id (remove_class id' c d) = present id d.
Proof. apply present_alter. Qed.
Lemma present_set_text t : present id (set_text id' t d) = present id d.
Proof. apply present_alter. Qed.
Lemma present_set_html h : present id (set_html id' h d) = present id d.
Proof. apply present_alter. Qed.
Lemma present_set_children l : present id (set_children id' l d) = present id d.
Proof. apply present_alter. Qed.
Lemma present_set_onclick h : present id (set_onclick id' h d) = present id d.
Proof. apply present_alter. Qed.
Lemma present_set_disabled b : present id (set_disabled id' b d) = present id d.
Proof. apply present_alter. Qed.
Lemma present_set_options l : present id (set_options id' l d) = present id d.
Proof. apply present_alter. Qed.
Lemma vis_set_options l : vis id (set_options id' l d) = vis id d.
Proof. by apply vis_alter_keep. Qed.
Lemma present_set_value v : present id (set_value id' v d) = present id d.
Proof. apply present_alter. Qed.
Lemma vis_set_value v : vis id (set_value id' v d) = vis id d.
Proof. by apply vis_alter_keep. Qed.
Lemma vis_set_text t : vis id (set_text id' t d) = vis id d.
Proof. by apply vis_alter_keep. Qed.
Lemma vis_set_html h : vis id (set_html id' h d) = vis id d.
Proof. by apply vis_alter_keep. Qed.
Lemma vis_set_children l : vis id (set_children id' l d) = vis id d.
Proof. by apply vis_alter_keep. Qed.
Lemma vis_set_onclick h : vis id (set_onclick id' h d) = vis id d.
Proof. by apply vis_alter_keep. Qed.
Lemma vis_set_disabled b : vis id (set_disabled id' b d) = vis id d.
Proof. by apply vis_alter_keep. Qed.
Lemma text_of_add_class c : text_of id (add_class id' c d) = text_of id d.
Proof. by apply text_alter_keep. Qed.
Lemma text_of_remove_class c : text_of id (remove_class id' c d) = text_of id d.
Proof. by apply text_alter_keep. Qed.
Lemma text_of_set_html h : text_of id (set_html id' h d) = text_of id d.
Proof. by apply text_alter_keep. Qed.
Lemma html_of_add_class c : html_of id (add_class id' c d) = html_of id d.
Proof. by apply html_alter_keep. Qed.
Lemma html_of_remove_class c : html_of id (remove_class id' c d) = html_of id d.
Proof. by apply html_alter_keep. Qed.
Lemma html_of_set_text t : html_of id (set_text id' t d) = html_of id d.
Proof. by apply html_alter_keep. Qed.
Lemma disabled_of_add_class c : disabled_of id (add_class id' c d) = disabled_of id d.
Proof. by apply disabled_alter_keep. Qed.
Lemma disabled_of_remove_class c : disabled_of id (remove_class id' c d) = disabled_of id d.
Proof. by apply disabled_alter_keep. Qed.
Lemma disabled_of_set_text t : disabled_of id (set_text id' t d) = disabled_of id d.
Proof. by apply disabled_alter_keep. Qed.
Lemma text_of_set_disabled b : text_of id (set_disabled id' b d) = text_of id d.
Proof. by apply text_alter_keep. Qed.
End Keep.

#[export] Hint Rewrite vis_add_class vis_remove_class vis_set_text vis_set_html
  vis_set_children vis_set_onclick vis_set_disabled present_add_class
  present_remove_class present_set_text present_set_html present_set_children
  present_set_onclick present_set_disabled present_set_options vis_set_options present_set_value vis_set_value text_of_set_text text_of_add_class
  text_of_remove_class text_of_set_html html_of_set_html html_of_add_class
  html_of_remove_class html_of_set_text visible_remove_hidden disabled_of_set_disabled
  disabled_of_add_class disabled_of_remove_class disabled_of_set_text text_of_set_disabled : psych_rw.

(** Rewrite the reads of the page through the updates, and evaluate the
    comparisons of literal ids. *)
Ltac page_simpl :=
  repeat (autorewrite with psych_rw; cbn [String.eqb Ascii.eqb Bool.eqb andb orb negb]).

(** Compute the lookups of literal ids through the updates. *)
Ltac page_lookup :=
  unfold children_of, onclick_of, text_of, html_of, disabled_of, options_of, vis, present,
    add_class, remove_class, set_text, set_html, set_children, set_onclick,
    set_disabled, set_options, set_value in *;
  rewrite ?lookup_alter_string; cbn [String.eqb Ascii.eqb Bool.eqb andb].

End Dom.
