(* ===== verification/Factors.v ===== *)
(** * Factors: the pre-loaded factor table, its sort and its lookup

    Lines 5-82 of [src/index.js]: the table [sourceData] of 22 factors
    with their percentages, [initializeInternalApp], which sorts the table
    in place by [localeCompare] of the names and fills the selector
    ([populateDropdown]), and [findPercentage], the [change] handler of the
    selector, which shows the percentage of the chosen factor and enables
    the "Learn More" button.

    [Array.prototype.sort] and [String.prototype.localeCompare] are
    built-ins: the sort is modelled as a stable insertion sort (the
    language requires [sort] to be stable, and a stable sort by a total
    comparator has one result), and the collation as the root collation
    restricted to ASCII: spaces and punctuation before digits before
    letters, letters compared without case, and case (lower first) only to
    break a tie. *)

From S2P Require Import Prelude JsValue Dom.
From stdpp Require Import gmap sorting.
From Stdlib Require Import Ascii.
From Stdlib Require QArith_base.

Module Factors.

Import Dom.

(** ** The table (lines 5-28) *)

Record row := { factorName : string; percentage : Z }.

#[export] Instance row_eq_dec : EqDecision row.
Proof. solve_decision. Defined.

Definition sourceData : list row := [
  {| factorName := "Multiple/unknown"; percentage := 60 |};
  {| factorName := "Authority"; percentage := 59 |};
  {| factorName := "Credibility"; percentage := 48 |};
  {| factorName := "Familiarity"; percentage := 43 |};
  {| factorName := "Following business"; percentage := 28 |};
  {| factorName := "Fear/Loss Aversion"; percentage := 24 |};
  {| factorName := "Legitimacy"; percentage := 19 |};
  {| factorName := "Curiosity"; percentage := 16 |};
  {| factorName := "Attraction"; percentage := 11 |};
  {| factorName := "Urgency"; percentage := 11 |};
  {| factorName := "Reverse SE"; percentage := 11 |};
  {| factorName := "Intimidation"; percentage := 10 |};
  {| factorName := "Liking"; percentage := 8 |};
  {| factorName := "Building rapport"; percentage := 7 |};
  {| factorName := "Reciprocity"; percentage := 7 |};
  {| factorName := "Expertise"; percentage := 7 |};
  {| factorName := "Greed"; percentage := 6 |};
  {| factorName := "Desire to help"; percentage := 6 |};
  {| factorName := "SSO, Data, Finance"; percentage := 5 |};
  {| factorName := "Opportunity"; percentage := 4 |};
  {| factorName := "Consistency"; percentage := 4 |};
  {| factorName := "Utility"; percentage := 4 |}
].

(** ** [localeCompare] *)

Fixpoint lex (x y : list nat) : comparison :=
  match x, y with
  | [], [] => Eq
  | [], _ :: _ => Lt
  | _ :: _, [] => Gt
  | a :: x', b :: y' => match Nat.compare a b with Eq => lex x' y' | c => c end
  end.

(** Primary weight of a character: letters without case above digits
    above every other character. *)
Definition primary_weight (c : ascii) : nat :=
  let n := nat_of_ascii c in
  if (97 <=? n) && (n <=? 122) then 300 + (n - 97)
  else if (65 <=? n) && (n <=? 90) then 300 + (n - 65)
  else if (48 <=? n) && (n <=? 57) then 200 + (n - 48)
  else n.

(** Tertiary weight: the case of a letter, lower case first. *)
Definition tertiary_weight (c : ascii) : nat :=
  let n := nat_of_ascii c in if (65 <=? n) && (n <=? 90) then 1 else 0.

Definition locale_compare (a b : string) : comparison :=
  match lex (map primary_weight (String.list_ascii_of_string a))
            (map primary_weight (String.list_ascii_of_string b)) with
  | Eq => lex (map tertiary_weight (String.list_ascii_of_string a))
              (map tertiary_weight (String.list_ascii_of_string b))
  | c => c
  end.

(** ** [Array.prototype.sort], stable *)

Section Sort.
Context {T : Type} (cmp : T -> T -> comparison).

Fixpoint insert_by (x : T) (l : list T) : list T :=
  match l with
  | [] => [x]
  | h :: t => match cmp x h with Gt => h :: insert_by x t | _ => x :: h :: t end
  end.

Fixpoint sort_by (l : list T) : list T :=
  match l with [] => [] | x :: l' => insert_by x (sort_by l') end.

End Sort.

(** The comparator of line 44: [(a, b) => a[keyFactor].localeCompare(b[keyFactor])]. *)
Definition compare_rows (a b : row) : comparison := locale_compare (factorName a) (factorName b).

(** ** The selector and the result (lines 35-39, 51-82) *)

Definition selected_value (d : dom) : string := default "" (value <$> d !! "select-factor").

Definition option_of (r : row) : string * string := (factorName r, factorName r).

(** Lines 51-59: assigning [innerHTML] leaves the one option "default",
    which the selector then shows; the appended options follow it. *)
Definition populateDropdown (data : list row) (d : dom) : dom :=
  set_options "select-factor" (("default", "Select a factor...") :: map option_of data)
    (set_value "select-factor" "default" d).

(** Lines 42-48 without the two [addEventListener]: the table sorted in
    place, then the selector filled from it. *)
Definition initializeInternalApp (data : list row) (d : dom) : list row * dom :=
  let data' := sort_by compare_rows data in (data', populateDropdown data' d).

(** [`${match[keyPercentage]}%`] *)
Definition percent_text (p : Z) : string := to_string (JNum (QArith_base.inject_Z p)) +s+ "%".

Definition find_row (data : list row) (v : string) : option row :=
  find (fun r => String.eqb (factorName r) v) data.

(** Lines 62-82. *)
Definition findPercentage (data : list row) (d : dom) : dom :=
  let selectedValue := selected_value d in
  let d1 := add_class "result-label" "hidden"
              (add_class "result-value" "hidden" (add_class "result-placeholder" "hidden" d)) in
  if String.eqb selectedValue "default" then
    set_disabled "learn-more-button" true (remove_class "result-placeholder" "hidden" d1)
  else
    let d2 := set_disabled "learn-more-button" false d1 in
    match find_row data selectedValue with
    | Some m =>
        remove_class "result-label" "hidden"
          (remove_class "result-value" "hidden"
             (set_text "result-value" (percent_text (percentage m)) d2))
    | None => d2
    end.

Definition factor_ids : list string :=
  ["select-factor"; "result-placeholder"; "result-value"; "result-label"; "learn-more-button"].

Definition factors_ok (d : dom) : Prop := Forall (fun id => present id d = true) factor_ids.

(** The user picks the option of value [v] in the selector. *)
Definition choose (v : string) (d : dom) : dom := set_value "select-factor" v d.

End Factors.

Module FactorsProofs.

Import Dom Factors.

(** ** The collation is a total order *)

Lemma lex_opp x y : lex y x = CompOpp (lex x y).
Proof.
  revert y. induction x as [|a x IH]; intros [|b y]; cbn; try done.
  rewrite (Nat.compare_antisym a b). destruct (Nat.compare a b); cbn; auto.
Qed.

Lemma locale_compare_opp a b : locale_compare b a = CompOpp (locale_compare a b).
Proof.
  unfold locale_compare. rewrite (lex_opp (map primary_weight _)).
  destruct (lex (map primary_weight _) _); cbn; auto using lex_opp.
Qed.

Lemma compare_rows_total a b : compare_rows a b = Gt -> compare_rows b a <> Gt.
Proof. unfold compare_rows. rewrite (locale_compare_opp (factorName a)). by intros ->. Qed.

(** ** The sort *)

Section SortProofs.
Context {T : Type} (cmp : T -> T -> comparison).
Hypothesis cmp_total : forall a b, cmp a b = Gt -> cmp b a <> Gt.

Abbreviation le_by := (fun a b => cmp a b <> Gt).

Lemma insert_by_perm x l : insert_by cmp x l ≡ₚ x :: l.
Proof.
  induction l as [|h t IH]; cbn; [done|].
  destruct (cmp x h); try done. rewrite IH. constructor.
Qed.

Lemma sort_by_perm l : sort_by cmp l ≡ₚ l.
Proof. induction l as [|x l IH]; cbn; [done|]. by rewrite insert_by_perm, IH. Qed.

Lemma insert_by_sorted x l : Sorted le_by l -> Sorted le_by (insert_by cmp x l).
Proof using cmp_total.
  induction 1 as [|h t Ht IH Hh]; cbn; [by repeat constructor|].
  destruct (cmp x h) eqn:E; try (constructor; [by constructor|constructor; congruence]).
  constructor; [done|]. apply cmp_total in E.
  destruct t as [|h' t]; cbn in *; [by repeat constructor|].
  inversion Hh; subst. destruct (cmp x h'); by constructor.
Qed.

Lemma sort_by_sorted l : Sorted le_by (sort_by cmp l).
Proof using cmp_total. induction l; cbn; [constructor|by apply insert_by_sorted]. Qed.

End SortProofs.

(** ** Lookup by name *)

Lemma find_row_some l v r : find_row l v = Some r -> r ∈ l /\ factorName r = v.
Proof.
  unfold find_row. intros Hf. apply find_some in Hf as [Hin Heq].
  split; [by apply list_elem_of_In|by apply String.eqb_eq].
Qed.

Lemma find_row_member l r :
  NoDup (map factorName l) -> r ∈ l -> find_row l (factorName r) = Some r.
Proof.
  induction l as [|h t IH]; intros Hnd Hin; [by apply elem_of_nil in Hin|].
  cbn in Hnd |- *. apply NoDup_cons in Hnd as [Hh Hnd].
  apply elem_of_cons in Hin as [->|Hin]; [by rewrite String.eqb_refl|].
  destruct (String.eqb_spec (factorName h) (factorName r)) as [E|]; [|by apply IH].
  exfalso. apply Hh. rewrite E. by apply list_elem_of_fmap_2.
Qed.

Lemma find_row_absent l v : v ∉ map factorName l -> find_row l v = None.
Proof.
  unfold find_row. induction l as [|h t IH]; intros Hv; cbn; [done|].
  cbn in Hv. apply not_elem_of_cons in Hv as [Hh Hv].
  destruct (String.eqb_spec (factorName h) v); [congruence|auto].
Qed.

(** A permutation of a table whose names are distinct finds the same row
    for every name. *)
Lemma find_row_perm l l' v :
  NoDup (map factorName l) -> l ≡ₚ l' -> find_row l' v = find_row l v.
Proof.
  intros Hnd Hp.
  assert (Hnd' : NoDup (map factorName l')) by (by rewrite <- Hp).
  destruct (find_row l v) as [r|] eqn:Hf.
  - apply find_row_some in Hf as [Hin <-]. apply find_row_member; [done|by rewrite <- Hp].
  - apply find_row_absent. intros Hv. apply list_elem_of_fmap in Hv as (r & -> & Hr).
    rewrite <- Hp in Hr. by rewrite (find_row_member l r) in Hf.
Qed.

Lemma factors_ok_present d id : factors_ok d -> In id factor_ids -> present id d = true.
Proof. intros Hok Hin. unfold factors_ok in Hok. rewrite Forall_forall in Hok. by apply Hok, list_elem_of_In. Qed.

Lemma sourceData_names_wf :
  NoDup (map factorName sourceData) /\ Forall (fun r => factorName r <> "default") sourceData.
Proof.
  split; [apply (bool_decide_unpack _); vm_compute; reflexivity|].
  repeat constructor; cbn; discriminate.
Qed.

Ltac factors_present Hok :=
  repeat rewrite (factors_ok_present _ _ Hok) by (cbn; tauto).

Lemma findPercentage_match data d m :
  factors_ok d -> find_row data (selected_value d) = Some m -> selected_value d <> "default" ->
  text_of "result-value" (findPercentage data d) = Some (percent_text (percentage m)) /\
  vis "result-value" (findPercentage data d) = true /\
  vis "result-label" (findPercentage data d) = true /\
  vis "result-placeholder" (findPercentage data d) = false /\
  disabled_of "learn-more-button" (findPercentage data d) = Some false.
Proof.
  intros Hok Hf Hdef. unfold findPercentage.
  apply String.eqb_neq in Hdef as ->. rewrite Hf.
  split; [|split; [|split; [|split]]].
  - rewrite !text_of_remove_class. apply text_of_set_text_same. page_simpl. by factors_present Hok.
  - page_simpl. by factors_present Hok.
  - page_simpl. by factors_present Hok.
  - by page_simpl.
  - rewrite !disabled_of_remove_class, disabled_of_set_text.
    apply disabled_of_set_disabled_same. page_simpl. by factors_present Hok.
Qed.

Lemma factors_ok_alter f id d : factors_ok d -> factors_ok (alter f id d).
Proof. unfold factors_ok. intros Hok. eapply Forall_impl; [exact Hok|]. intros x. by rewrite present_alter. Qed.

Lemma selected_value_choose v d :
  present "select-factor" d = true -> selected_value (choose v d) = v.
Proof.
  intros Hp. unfold selected_value, choose. by rewrite value_set_value_same.
Qed.

(** C30. Choosing a factor of the table shows its percentage followed by
    "%", shows the value and its label, hides the placeholder and enables
    the "Learn More" button. *)
Theorem findPercentage_shows data d r :
  factors_ok d -> NoDup (map factorName data) -> r ∈ data ->
  selected_value d = factorName r -> factorName r <> "default" ->
  text_of "result-value" (findPercentage data d) = Some (percent_text (percentage r)) /\
  vis "result-value" (findPercentage data d) = true /\
  vis "result-label" (findPercentage data d) = true /\
  vis "result-placeholder" (findPercentage data d) = false /\
  disabled_of "learn-more-button" (findPercentage data d) = Some false.
Proof.
  intros Hok Hnd Hin Hsel Hdef. apply findPercentage_match; rewrite ?Hsel; auto.
  by apply find_row_member.
Qed.

(** C31. Choosing the "Select a factor..." option shows the placeholder,
    hides the value and its label, and disables the "Learn More" button. *)
Theorem findPercentage_default data d :
  factors_ok d -> selected_value d = "default" ->
  vis "result-placeholder" (findPercentage data d) = true /\
  vis "result-value" (findPercentage data d) = false /\
  vis "result-label" (findPercentage data d) = false /\
  disabled_of "learn-more-button" (findPercentage data d) = Some true.
Proof.
  intros Hok Hsel. unfold findPercentage. rewrite Hsel. cbn [String.eqb Ascii.eqb Bool.eqb andb].
  split; [|split; [|split]]; try (page_simpl; by factors_present Hok).
  apply disabled_of_set_disabled_same. page_simpl. by factors_present Hok.
Qed.

(** C33. Sorting the table does not change what [findPercentage] shows,
    whatever the page, since the names of the table are distinct. *)
Theorem findPercentage_sort_invariant data d :
  NoDup (map factorName data) ->
  findPercentage (fst (initializeInternalApp data d)) d = findPercentage data d.
Proof.
  intros Hnd. unfold findPercentage. cbn [initializeInternalApp fst].
  by rewrite (find_row_perm data (sort_by compare_rows data) (selected_value d) Hnd
                (symmetry (sort_by_perm _ data))).
Qed.

Lemma Sorted_map_names l :
  Sorted (fun a b => compare_rows a b <> Gt) l ->
  Sorted (fun x y => locale_compare x y <> Gt) (map factorName l).
Proof.
  induction 1 as [|a l Hs IH Hh]; cbn; constructor; [done|].
  destruct Hh; cbn; constructor. done.
Qed.

Lemma options_initialize data d :
  present "select-factor" d = true ->
  options_of "select-factor" (snd (initializeInternalApp data d)) =
    Some (("default", "Select a factor...") :: map option_of (sort_by compare_rows data)).
Proof.
  intros Hp. destruct (present_lookup _ _ Hp) as [e He].
  cbn [initializeInternalApp snd]. unfold populateDropdown. page_lookup. by rewrite He.
Qed.

Lemma selected_initialize data d :
  present "select-factor" d = true -> selected_value (snd (initializeInternalApp data d)) = "default".
Proof.
  intros Hp. cbn [initializeInternalApp snd]. unfold selected_value, populateDropdown, set_options.
  rewrite value_alter_keep by done. by rewrite value_set_value_same.
Qed.

(** C34. After [initializeInternalApp] the selector shows "Select a
    factor..." (value "default") followed by one option per row of the
    table, whose value and text are the row's name; the option names are
    a permutation of the table's names, in the order of [localeCompare]. *)
Theorem initialize_sorts_and_fills data d :
  present "select-factor" d = true ->
  exists rest,
    options_of "select-factor" (snd (initializeInternalApp data d)) =
      Some (("default", "Select a factor...") :: rest) /\
    Forall (fun o => fst o = snd o) rest /\
    Permutation (map fst rest) (map factorName data) /\
    Sorted (fun a b => locale_compare a b <> Gt) (map fst rest) /\
    selected_value (snd (initializeInternalApp data d)) = "default".
Proof.
  intros Hp. exists (map option_of (sort_by compare_rows data)).
  rewrite options_initialize, selected_initialize by done.
  split; [done|]. split; [by apply Forall_forall; intros [] (? & [= -> ->] & _)%list_elem_of_fmap|].
  rewrite map_map. cbn [option_of fst]. split; [|split; [|done]].
  - apply Permutation_map, sort_by_perm.
  - apply Sorted_map_names, sort_by_sorted, compare_rows_total.
Qed.

(** C32. After the start-up of the page, every factor of the table is an
    option of the selector, and choosing any option other than "Select a
    factor..." shows the percentage the table gives for the factor of that
    name. *)
Theorem chosen_factor_shows d :
  factors_ok d ->
  exists opts,
    options_of "select-factor" (snd (initializeInternalApp sourceData d)) = Some opts /\
    (forall r, r ∈ sourceData -> option_of r ∈ opts) /\
    (forall v t, (v, t) ∈ opts -> v <> "default" ->
       exists r, r ∈ sourceData /\ factorName r = v /\
         text_of "result-value"
           (findPercentage (fst (initializeInternalApp sourceData d))
                           (choose v (snd (initializeInternalApp sourceData d))))
           = Some (percent_text (percentage r))).
Proof.
  intros Hok. destruct (sourceData_names_wf) as [Hnd Hdef].
  assert (Hp : present "select-factor" d = true) by (by factors_present Hok).
  pose proof (sort_by_perm compare_rows sourceData) as Hperm.
  eexists. split; [by apply options_initialize|]. split.
  { intros r Hr. apply elem_of_cons. right. apply list_elem_of_fmap_2. by rewrite Hperm. }
  intros v t Hin Hv. apply elem_of_cons in Hin as [[= -> _]|Hin]; [done|].
  apply list_elem_of_fmap in Hin as (r & [= -> ->] & Hr). rewrite Hperm in Hr.
  exists r. do 2 (split; [done|]).
  assert (Hsel : selected_value (choose (factorName r) (snd (initializeInternalApp sourceData d)))
                 = factorName r)
    by (apply selected_value_choose; cbn [initializeInternalApp snd]; unfold populateDropdown;
        page_simpl; exact Hp).
  apply findPercentage_match; rewrite ?Hsel.
  - apply factors_ok_alter. cbn [initializeInternalApp snd]. unfold populateDropdown, set_options.
    by apply factors_ok_alter, factors_ok_alter.
  - cbn [initializeInternalApp fst]. apply find_row_member; [by rewrite Hperm|by rewrite Hperm].
  - rewrite Forall_forall in Hdef. by apply Hdef.
Qed.

End FactorsProofs.

Module FactorsExamples.

Import Dom Factors FactorsProofs.

Definition node (hidden : bool) (v : string) : element :=
  {| classes := if hidden then {["hidden"]} else ∅; textContent := ""; innerHTML := "";
     children := []; onclick := None; value := v; disabled := true; options := [] |}.

(** The elements of lines 35-39, with [v] chosen in the selector. *)
Definition factors_page (v : string) : dom :=
  list_to_map [("select-factor", node false v); ("result-placeholder", node false "");
               ("result-value", node true ""); ("result-label", node true "");
               ("learn-more-button", node false "")].

Lemma factors_ok_page v : factors_ok (factors_page v).
Proof. unfold factors_ok. apply (bool_decide_unpack _). vm_compute. reflexivity. Qed.

Definition urgency : row := {| factorName := "Urgency"; percentage := 11 |}.

Lemma findPercentage_shows_witness :
  text_of "result-value" (findPercentage sourceData (factors_page "Urgency")) = Some "11%" /\
  vis "result-value" (findPercentage sourceData (factors_page "Urgency")) = true /\
  vis "result-label" (findPercentage sourceData (factors_page "Urgency")) = true /\
  vis "result-placeholder" (findPercentage sourceData (factors_page "Urgency")) = false /\
  disabled_of "learn-more-button" (findPercentage sourceData (factors_page "Urgency")) = Some false.
Proof.
  apply (findPercentage_shows sourceData (factors_page "Urgency") urgency).
  - apply factors_ok_page.
  - apply (bool_decide_unpack _). vm_compute. reflexivity.
  - apply (bool_decide_unpack _). vm_compute. reflexivity.
  - reflexivity.
  - discriminate.
Defined.

Lemma findPercentage_default_witness :
  vis "result-placeholder" (findPercentage sourceData (factors_page "default")) = true /\
  vis "result-value" (findPercentage sourceData (factors_page "default")) = false /\
  vis "result-label" (findPercentage sourceData (factors_page "default")) = false /\
  disabled_of "learn-more-button" (findPercentage sourceData (factors_page "default")) = Some true.
Proof. apply findPercentage_default; [apply factors_ok_page|reflexivity]. Defined.

Lemma findPercentage_sort_invariant_witness :
  findPercentage (fst (initializeInternalApp sourceData (factors_page "Greed"))) (factors_page "Greed")
    = findPercentage sourceData (factors_page "Greed").
Proof.
  apply findPercentage_sort_invariant. apply (bool_decide_unpack _). vm_compute. reflexivity.
Defined.

Lemma chosen_factor_shows_witness :
  exists opts,
    options_of "select-factor" (snd (initializeInternalApp sourceData (factors_page "Greed"))) = Some opts /\
    (forall r, r ∈ sourceData -> option_of r ∈ opts) /\
    (forall v t, (v, t) ∈ opts -> v <> "default" ->
       exists r, r ∈ sourceData /\ factorName r = v /\
         text_of "result-value"
           (findPercentage (fst (initializeInternalApp sourceData (factors_page "Greed")))
                           (choose v (snd (initializeInternalApp sourceData (factors_page "Greed")))))
           = Some (percent_text (percentage r))).
Proof. apply chosen_factor_shows. apply factors_ok_page. Defined.

Lemma initialize_sorts_and_fills_witness :
  exists rest,
    options_of "select-factor" (snd (initializeInternalApp sourceData (factors_page "Greed"))) =
      Some (("default", "Select a factor...") :: rest) /\
    Forall (fun o => fst o = snd o) rest /\
    Permutation (map fst rest) (map factorName sourceData) /\
    Sorted (fun a b => locale_compare a b <> Gt) (map fst rest) /\
    selected_value (snd (initializeInternalApp sourceData (factors_page "Greed"))) = "default".
Proof. apply initialize_sorts_and_fills. vm_compute. reflexivity. Defined.

End FactorsExamples.
