(* ===== verification/Timers.v ===== *)
(** * Timers: the [setTimeout] callbacks of the page and the clock

    Three handlers of [src/index.js] schedule a callback with
    [setTimeout]: [copyToClipboard] hides the "copied" notification after
    2000 ms (lines 321-323), [openModal] fades the modal in after 10 ms
    (lines 389-392) and [closeModal] hides it after 250 ms (lines 399-401).
    [Module Timers] models the browser's timer queue: the page together
    with the current time and the pending callbacks in the order they were
    scheduled.  Letting time pass runs the callbacks that fall due, in the
    order of their due times and, for equal due times, in the order they
    were scheduled (the stable sort of [Factors]). *)

From S2P Require Import Prelude JsValue Dom Factors.
From stdpp Require Import gmap.

Module Timers.

Import Dom Factors.

(** The callbacks given to [setTimeout]. *)
Inductive timer_action :=
| HideCopyNotification
| RevealModal
| HideModal.

(** The selector [modal.querySelector('.modal-content')], as an id of the
    page. *)
Definition modal_content : string := "factor-modal .modal-content".

Definition run_action (a : timer_action) (d : dom) : dom :=
  match a with
  | HideCopyNotification => add_class "copy-notification" "hidden" d
  | RevealModal => remove_class modal_content "scale-95" (remove_class "factor-modal" "opacity-0" d)
  | HideModal => add_class "factor-modal" "hidden" d
  end.

(** The callbacks of [l], run one after the other. *)
Definition run_all (d : dom) (l : list (Z * timer_action)) : dom :=
  foldl (fun d x => run_action (snd x) d) d l.

Record ui := { page : dom; now : Z; pending : list (Z * timer_action) }.

Definition with_page (f : dom -> dom) (u : ui) : ui :=
  {| page := f (page u); now := now u; pending := pending u |}.

(** [setTimeout(callback, ms)] *)
Definition setTimeout (ms : Z) (a : timer_action) (u : ui) : ui :=
  {| page := page u; now := now u; pending := pending u ++ [((now u + ms)%Z, a)] |}.

Definition compare_due (x y : Z * timer_action) : comparison := Z.compare (fst x) (fst y).

Definition is_due (t : Z) (x : Z * timer_action) : bool := (fst x <=? t)%Z.

(** [t] milliseconds pass with no user input. *)
Definition advance (t : Z) (u : ui) : ui :=
  let deadline := (now u + t)%Z in
  let due := List.filter (is_due deadline) (sort_by compare_due (pending u)) in
  {| page := run_all (page u) due;
     now := deadline;
     pending := List.filter (fun x => negb (is_due deadline x)) (pending u) |}.

End Timers.

Module TimersProofs.

Import Dom Factors FactorsProofs Timers.

Lemma advance_nothing_due t u :
  Forall (fun x => now u + t < fst x)%Z (pending u) ->
  advance t u = {| page := page u; now := now u + t; pending := pending u |}.
Proof.
  intros Hall. unfold advance.
  assert (Hs : Forall (fun x => now u + t < fst x)%Z (sort_by compare_due (pending u))).
  { eapply Permutation_Forall; [|exact Hall]. by rewrite sort_by_perm. }
  rewrite (filter_Forall_false _ _ _ Hs) by (intros x Hx; unfold is_due; cmp_lia).
  rewrite (filter_Forall_true _ _ _ Hall) by (intros x Hx; unfold is_due; apply negb_true_iff; cmp_lia).
  done.
Qed.


Lemma run_all_cons d x l : run_all d (x :: l) = run_all (run_action (snd x) d) l.
Proof. reflexivity. Qed.

Lemma present_run_all id l d : present id (run_all d l) = present id d.
Proof.
  revert d. induction l as [|[? a] l IH]; intros d; [done|].
  rewrite run_all_cons, IH. destruct a; cbn [run_action snd]; unfold modal_content; by page_simpl.
Qed.

Lemma value_run_all id l d : value <$> run_all d l !! id = value <$> d !! id.
Proof.
  revert d. induction l as [|[? a] l IH]; intros d; [done|].
  rewrite run_all_cons, IH. destruct a; cbn [run_action snd]; unfold add_class, remove_class;
    by rewrite ?value_alter_keep.
Qed.

(** No callback shows the modal again. *)
Lemma run_action_modal_hidden a d :
  vis "factor-modal" d = false -> vis "factor-modal" (run_action a d) = false.
Proof. intros H. destruct a; cbn [run_action snd]; unfold modal_content; page_simpl; auto. Qed.

(** Only [HideModal] hides it. *)
Lemma run_action_modal_keep a d :
  a <> HideModal -> vis "factor-modal" (run_action a d) = vis "factor-modal" d.
Proof. intros H. destruct a; cbn [run_action snd]; unfold modal_content; [page_simpl..|done]; auto. Qed.

(** No callback shows the copy notification again. *)
Lemma run_action_notification_hidden a d :
  vis "copy-notification" d = false -> vis "copy-notification" (run_action a d) = false.
Proof. intros H. destruct a; cbn [run_action snd]; unfold modal_content; page_simpl; auto. Qed.

Section Hides.
Context (id : string) (h : timer_action).
Hypothesis stays_hidden : forall a d, vis id d = false -> vis id (run_action a d) = false.
Hypothesis hides : forall d, present id d = true -> vis id (run_action h d) = false.

Lemma run_all_hidden l d : vis id d = false -> vis id (run_all d l) = false.
Proof using stays_hidden.
  revert d. induction l as [|x l IH]; intros d Hv; [done|].
  rewrite run_all_cons. by apply IH, stays_hidden.
Qed.

(** Once the callback [h] among the callbacks has run, [id] stays hidden. *)
Lemma run_all_hides l d w :
  present id d = true -> (w, h) ∈ l -> vis id (run_all d l) = false.
Proof using stays_hidden hides.
  revert d. induction l as [|[w' a] l IH]; intros d Hp Hin; [by apply elem_of_nil in Hin|].
  rewrite run_all_cons; cbn [snd]. apply elem_of_cons in Hin as [[= <- <-]|Hin].
  - by apply run_all_hidden, hides.
  - apply IH; [|done]. change (run_action a d) with (run_all d [(w', a)]). by rewrite present_run_all.
Qed.

End Hides.

Lemma run_all_hide_modal l d w :
  present "factor-modal" d = true -> (w, HideModal) ∈ l ->
  vis "factor-modal" (run_all d l) = false.
Proof.
  apply run_all_hides; [apply run_action_modal_hidden|].
  intros d' Hp. cbn [run_action]. by page_simpl.
Qed.

Lemma run_all_hide_notification l d w :
  present "copy-notification" d = true -> (w, HideCopyNotification) ∈ l ->
  vis "copy-notification" (run_all d l) = false.
Proof.
  apply run_all_hides; [apply run_action_notification_hidden|].
  intros d' Hp. cbn [run_action]. by page_simpl.
Qed.

Lemma run_all_modal_keep l d :
  Forall (fun x => snd x <> HideModal) l -> vis "factor-modal" (run_all d l) = vis "factor-modal" d.
Proof.
  intros Hl. revert d. induction Hl as [|x l Hx _ IH]; intros d; [done|].
  by rewrite run_all_cons, IH, run_action_modal_keep.
Qed.

(** The callbacks [advance] runs are the pending ones that fall due. *)
Lemma advance_runs x t u :
  x ∈ pending u -> (fst x <= now u + t)%Z -> x ∈ List.filter (is_due (now u + t)) (sort_by compare_due (pending u)).
Proof.
  intros Hin Hle. apply list_elem_of_In, filter_In. split.
  - apply list_elem_of_In. by rewrite sort_by_perm.
  - unfold is_due. cmp_lia.
Qed.

Lemma advance_keeps x t u :
  x ∈ pending u -> (now u + t < fst x)%Z -> x ∈ pending (advance t u).
Proof.
  intros Hin Hlt. cbn. apply list_elem_of_In, filter_In. split; [by apply list_elem_of_In|].
  unfold is_due. apply negb_true_iff. cmp_lia.
Qed.

Lemma due_Forall (P : Z * timer_action -> Prop) d l :
  Forall P l -> Forall P (List.filter (is_due d) (sort_by compare_due l)).
Proof.
  intros Hl. apply Forall_forall. intros x Hx.
  apply list_elem_of_In, filter_In in Hx as [Hx _]. apply list_elem_of_In in Hx.
  rewrite sort_by_perm in Hx. by eapply Forall_forall in Hl.
Qed.

Lemma pending_Forall (P : Z * timer_action -> Prop) t u :
  Forall P (pending u) -> Forall P (pending (advance t u)).
Proof.
  intros Hl. cbn. apply Forall_forall. intros x Hx.
  apply list_elem_of_In, filter_In in Hx as [Hx _]. apply list_elem_of_In in Hx.
  by eapply Forall_forall in Hl.
Qed.

End TimersProofs.
