(* ===== verification/Research.v ===== *)
(** * Research: [callGeminiAPI] and [handleSearch]

    [callGeminiAPI] (src/index.js, lines 138-196) builds the grounded
    search payload (the query, the fixed system prompt, the
    [google_search] tool), and runs the retry loop of [Executor] with
    [processApiResponse] of [Normalizer] as the processing of the parsed
    body.  [handleSearch] (lines 108-135) trims the query, resets the page,
    awaits the call and renders the answer ([displayResults], lines
    229-285) or an error ([showError], lines 341-350).

    [Module CallGeminiAPI] holds the payload and the call.  [Module
    SearchView] models, on the page of [Dom], the helpers [showLoading],
    [showError], [showResults] and [displayResults], and the ids the
    handler writes ([search_ids], [page_ok]).
    [Module HandleSearch] splits the handler at its [await]: the part
    before it ([handleSearch_start]) and the part after it
    ([handleSearch_finish]), so that two searches can be interleaved the
    way the event loop can run them. *)

From S2P Require Import Prelude JsValue Json Executor Normalizer Dom.
From stdpp Require Import gmap.
From Stdlib Require Import Ascii.

Module CallGeminiAPI.

Import RetryLoop ProcessApiResponse.

Definition dq : string := String "034"%char EmptyString.

(** [const apiKey = "";] *)
Definition apiKey : string := "".

Definition apiUrl : string :=
  "https://generativelanguage.googleapis.com/v1beta/models/gemini-2.5-flash-preview-09-2025:generateContent?key="
  +s+ apiKey.

(** The system prompt, character for character (the template literal
    keeps the indentation of its continuation lines). *)
Definition systemPrompt : string :=
  "You are an academic cybersecurity research assistant.
            Your purpose is to find and summarize scholarly articles, conference papers, and reports from known cybersecurity institutions (e.g., NIST, ENISA, ACM, IEEE).
            You MUST follow these rules:
            1.  Your summary MUST be a direct synthesis of the information found in the provided Google Search sources.
            2.  **This is the most important rule:** You MUST cite your sources using inline notations like [Source 1], [Source 2], etc.
            3.  Each notation must correspond to the numbered source in the 'Grounded Sources' list.
            4.  **When listing sources:** Prioritize academic papers and official reports. If a source is from a known academic database (e.g., 'ACM Digital Library', 'IEEE Xplore', 'Springer') or institution ('NIST', 'ENISA'), you MUST name it in the source title.
            5.  Example of a good source title: " +s+ dq +s+
  "[IEEE Xplore] A new framework for deepfake detection." +s+ dq +s+
  "
            6.  If no academic sources are found, you may use high-quality, reputable news reports as a secondary option.
            7.  Focus on:
                a) Clear definitions of psychological factors.
                b) Specific cases of financial or data loss from these attacks.".

Definition payload (query : string) : jsval :=
  JObj [("contents", JArr [JObj [("parts", JArr [JObj [("text", JStr query)]])]]);
        ("systemInstruction", JObj [("parts", JArr [JObj [("text", JStr systemPrompt)]])]);
        ("tools", JArr [JObj [("google_search", JObj [])]])].

Section Call.

Context `{JsonBuiltins}.

(** [fetch(apiUrl, { method: 'POST', headers: {...}, body: JSON.stringify(payload) })] *)
Definition request_of (query : string) : request :=
  {| req_url := apiUrl; req_method := "POST"; req_content_type := "application/json";
     req_body := json_stringify (payload query) |}.

(** The call: the loop of lines 165-195 with [processApiResponse]. *)
Definition callGeminiAPI (net : nat -> fetch_outcome) (query : string)
  : loop_result grounded * loop_state :=
  run (request_of query) processApiResponse net.

End Call.

End CallGeminiAPI.

Module SearchView.

Import ProcessApiResponse Dom.

(** [showLoading] (lines 331-339) *)
Definition showLoading (isLoading : bool) (d : dom) : dom :=
  if isLoading then add_class "loader" "flex" (remove_class "loader" "hidden" d)
  else remove_class "loader" "flex" (add_class "loader" "hidden" d).

(** [showError] (lines 341-350): [null] or a message, tested for
    truthiness. *)
Definition showError (message : option string) (d : dom) : dom :=
  match message with
  | Some m =>
      if truthy (JStr m) then
        add_class "search-error" "flex"
          (remove_class "search-error" "hidden" (set_text "search-error p" m d))
      else remove_class "search-error" "flex" (add_class "search-error" "hidden" d)
  | None => remove_class "search-error" "flex" (add_class "search-error" "hidden" d)
  end.

(** [showResults] (lines 352-358) *)
Definition showResults (shouldShow : bool) (d : dom) : dom :=
  if shouldShow then remove_class "search-results" "hidden" d
  else add_class "search-results" "hidden" d.

(** The [<li>] built for one source (lines 233-261). *)
Definition render_source (s : source) : source_item :=
  {| item_href := to_string (uri s); item_title := to_string (title s);
     item_uri := to_string (uri s) |}.

Definition no_summary : string := "No summary was generated, but you can review the sources above.".

(** [displayResults] (lines 229-285). *)
Definition displayResults (summary : jsval) (sources : list source) (d : dom) : dom :=
  let d1 := set_children "sources-list" (map render_source sources) d in
  let d2 := if truthy summary
            then remove_class "summary-text" "hidden" (set_text "summary-text" (to_string summary) d1)
            else remove_class "summary-text" "hidden" (set_text "summary-text" no_summary d1) in
  let d3 := remove_class "share-button" "hidden" d2 in
  let d4 := set_onclick "share-button" (Some {| share_summary := summary; share_sources := sources |}) d3 in
  showResults true d4.

(** The ids the handler writes; the page declares them all. *)
Definition search_ids : list string :=
  ["search-input"; "loader"; "search-error"; "search-error p"; "search-prompt";
   "search-results"; "summary-text"; "sources-list"; "share-button"; "copy-notification"].

Definition page_ok (d : dom) : Prop := Forall (fun id => is_Some (d !! id)) search_ids.

End SearchView.

Module HandleSearch.

Import RetryLoop ProcessApiResponse CallGeminiAPI Dom SearchView.

(** [searchInput.value] *)
Definition input_value (d : dom) : string := default "" (value <$> d !! "search-input").

(** Lines 109-118, up to the [await]: [None] is the early return of an
    empty query. *)
Definition handleSearch_start (d : dom) : option (string * dom) :=
  let query := js_trim (input_value d) in
  if negb (truthy (JStr query)) then None
  else
    Some (query,
          add_class "share-button" "hidden"
            (add_class "copy-notification" "hidden"
               (add_class "search-prompt" "hidden"
                  (showResults false (showError None (showLoading true d)))))).

Definition no_results : string := "No relevant results found for this specific query.".
Definition fetch_failed : string := "Failed to fetch results. Please try again.".

(** Lines 122-134, after the [await]: the result of [callGeminiAPI] is
    rendered, or its exception shown; [finally] hides the loader.  The
    loop never falls through ([Executor]); if it did, [response.text]
    would throw on [undefined]. *)
Definition handleSearch_finish (r : loop_result grounded) (d : dom) : dom :=
  showLoading false
    (match r with
     | Returned g =>
         if truthy (text g) || bool_decide (0 < length (sources g))%nat
         then displayResults (text g) (sources g) d
         else showError (Some no_results) d
     | Raised e =>
         showError (Some (if String.eqb (exn_message e) "" then fetch_failed else exn_message e)) d
     | FellThrough | OutOfFuel => showError (Some (exn_message (read_error "undefined" "text"))) d
     end).

(** [handleSearch] (lines 108-135): the page after it and the trace of the
    network call. *)
Definition handleSearch `{JsonBuiltins} (net : nat -> fetch_outcome) (d : dom) : dom * list event :=
  match handleSearch_start d with
  | None => (d, [])
  | Some (q, d1) =>
      let '(r, st) := callGeminiAPI net q in (handleSearch_finish r d1, trace st)
  end.

(** ** Proofs *)

Lemma no_results_truthy : truthy (JStr no_results) = true.
Proof. reflexivity. Qed.

Lemma read_error_truthy b k : truthy (JStr (exn_message (read_error b k))) = true.
Proof. reflexivity. Qed.

#[export] Hint Rewrite no_results_truthy read_error_truthy : psych_rw.

Ltac unfold_view :=
  unfold handleSearch_finish, handleSearch_start, displayResults, showLoading, showError,
    showResults in *.

Lemma start_resets d q d1 :
  handleSearch_start d = Some (q, d1) ->
  vis "search-error" d1 = false /\ vis "search-results" d1 = false /\ vis "loader" d1 = present "loader" d /\
  (forall id, present id d1 = present id d).
Proof.
  unfold handleSearch_start. destruct (negb _); [discriminate|]. intros [= <- <-].
  unfold_view. repeat split; try intros id; by page_simpl.
Qed.

Lemma message_nonempty e :
  truthy (JStr (if String.eqb (exn_message e) "" then fetch_failed else exn_message e)) = true.
Proof.
  destruct (String.eqb_spec (exn_message e) "") as [He|Hne]; [reflexivity|].
  cbn. by apply String.eqb_neq in Hne as ->.
Qed.

Lemma finish_exclusive r d :
  vis "search-error" d = false -> vis "search-results" d = false ->
  present "search-error" d = true -> present "search-results" d = true ->
  vis "loader" (handleSearch_finish r d) = false /\
  vis "search-error" (handleSearch_finish r d) = negb (vis "search-results" (handleSearch_finish r d)).
Proof.
  intros He Hr Pe Pr. unfold_view.
  destruct r as [g|e| |]; page_simpl.
  - destruct (truthy (text g)), (bool_decide _); cbn [orb]; page_simpl;
      rewrite ?He, ?Hr, ?Pe, ?Pr; auto.
  - rewrite message_nonempty. page_simpl. rewrite ?He, ?Hr, ?Pe, ?Pr. auto.
  - rewrite ?He, ?Hr, ?Pe, ?Pr. auto.
  - rewrite ?He, ?Hr, ?Pe, ?Pr. auto.
Qed.

Lemma page_ok_present d id : page_ok d -> In id search_ids -> present id d = true.
Proof.
  intros Hok Hin. unfold page_ok in Hok. rewrite Forall_forall in Hok.
  unfold present. destruct (Hok id) as [e ->]; [by apply list_elem_of_In|done].
Qed.

Lemma handleSearch_started `{JsonBuiltins} net d q d1 :
  handleSearch_start d = Some (q, d1) ->
  handleSearch net d = (handleSearch_finish (fst (callGeminiAPI net q)) d1,
                        trace (snd (callGeminiAPI net q))).
Proof. intros Hs. unfold handleSearch. rewrite Hs. by destruct (callGeminiAPI net q). Qed.

(** C15. A query that is empty after [trim] changes nothing on the page
    and makes no request. *)
Theorem handleSearch_blank_query `{JsonBuiltins} net d :
  js_trim (input_value d) = "" -> handleSearch net d = (d, []).
Proof. intros Hq. unfold handleSearch, handleSearch_start. by rewrite Hq. Qed.

(** C16. After a search of a non-empty query the loader is hidden and
    exactly one of the error box and the results panel is visible. *)
Theorem handleSearch_exclusive `{JsonBuiltins} net d :
  page_ok d -> truthy (JStr (js_trim (input_value d))) = true ->
  vis "loader" (fst (handleSearch net d)) = false /\
  vis "search-error" (fst (handleSearch net d)) =
    negb (vis "search-results" (fst (handleSearch net d))).
Proof.
  intros Hok Hq.
  destruct (handleSearch_start d) as [[q d1]|] eqn:Hs;
    [|unfold handleSearch_start in Hs; rewrite Hq in Hs; discriminate].
  rewrite (handleSearch_started net d q d1 Hs). cbn [fst].
  destruct (start_resets _ _ _ Hs) as (He & Hr & _ & Hp).
  apply finish_exclusive; try done; rewrite Hp; apply page_ok_present; cbn; tauto.
Qed.

(** C17. When the call answers with no text and no source, the page
    shows "No relevant results found for this specific query.". *)
Theorem handleSearch_no_results `{JsonBuiltins} net d g :
  page_ok d -> truthy (JStr (js_trim (input_value d))) = true ->
  fst (callGeminiAPI net (js_trim (input_value d))) = Returned g ->
  truthy (text g) = false -> sources g = [] ->
  text_of "search-error p" (fst (handleSearch net d)) = Some no_results /\
  vis "search-error" (fst (handleSearch net d)) = true.
Proof.
  intros Hok Hq Hc Ht Hsrc.
  destruct (handleSearch_start d) as [[q d1]|] eqn:Hs;
    [|unfold handleSearch_start in Hs; rewrite Hq in Hs; discriminate].
  pose proof Hs as Hs'. unfold handleSearch_start in Hs'. rewrite Hq in Hs'.
  injection Hs' as <- _.
  rewrite (handleSearch_started net d _ d1 Hs), Hc. cbn [fst].
  destruct (start_resets _ _ _ Hs) as (_ & _ & _ & Hp).
  assert (Hpe : present "search-error p" d1 = true) by (rewrite Hp; apply page_ok_present; cbn; tauto).
  assert (Hpe' : present "search-error" d1 = true) by (rewrite Hp; apply page_ok_present; cbn; tauto).
  unfold_view. rewrite Ht, Hsrc. cbn [orb length]. rewrite bool_decide_eq_false_2 by lia.
  page_simpl. rewrite Hpe'. split; [|done].
  unfold text_of, present in *. destruct (d1 !! "search-error p"); [done|discriminate].
Qed.

Lemma try_attempt_ok `{JsonBuiltins} {A} (process : jsval -> completion A) r v :
  is_transient_status (status r) = false -> response_ok r = true ->
  json_parse (body r) = Normal v -> try_attempt process (Responded r) = process v.
Proof. intros Ht Hok Hp. unfold try_attempt. rewrite Ht, Hok, Hp. done. Qed.

(** C18. A response that [processApiResponse] rejects (for instance a
    candidate blocked for safety) is fetched three times before its
    message is shown: the block is retried like a server error, where the
    specification fails at once. *)
Theorem handleSearch_rejected_answer_retried `{JsonBuiltins} net d r v e :
  page_ok d -> truthy (JStr (js_trim (input_value d))) = true ->
  (forall i, net i = Responded r) ->
  is_transient_status (status r) = false -> response_ok r = true ->
  json_parse (body r) = Normal v -> processApiResponse v = Throw e ->
  truthy (JStr (exn_message e)) = true ->
  fetch_count (snd (handleSearch net d)) = 3%nat /\
  text_of "search-error p" (fst (handleSearch net d)) = Some (exn_message e).
Proof.
  intros Hok Hq Hnet Ht Hrok Hp He Hm.
  destruct (handleSearch_start d) as [[q d1]|] eqn:Hs;
    [|unfold handleSearch_start in Hs; rewrite Hq in Hs; discriminate].
  destruct (run_all_throw (request_of q) processApiResponse net (fun _ => e)) as (Hr & Hf).
  { intros j _. unfold outcome. rewrite Hnet. by rewrite (try_attempt_ok _ _ v). }
  rewrite (handleSearch_started net d q d1 Hs). cbn [fst snd]. unfold callGeminiAPI. rewrite Hr, Hf.
  split; [done|]. cbn [fst].
  destruct (start_resets _ _ _ Hs) as (_ & _ & _ & Hp').
  destruct (present_lookup "search-error p" d1) as [el Hel];
    [rewrite Hp'; apply page_ok_present; cbn; tauto|].
  unfold_view. cbn [truthy] in Hm |- *.
  destruct (String.eqb (exn_message e) "") eqn:E; [discriminate|].
  rewrite E. cbn [negb]. page_lookup. by rewrite Hel.
Qed.

(** C19. Two searches started before either finishes (a second click or
    Enter while the first request is pending): when the first succeeds
    after the second started and the second then fails, the page shows the
    error of the second and, at the same time, the results of the first. *)
Theorem interleaved_searches_stale_results d q1 d1 q2 d2 gA e :
  page_ok d -> handleSearch_start d = Some (q1, d1) -> handleSearch_start d1 = Some (q2, d2) ->
  truthy (text gA) = true ->
  vis "search-error" (handleSearch_finish (Raised e) (handleSearch_finish (Returned gA) d2)) = true /\
  vis "search-results" (handleSearch_finish (Raised e) (handleSearch_finish (Returned gA) d2)) = true /\
  children_of "sources-list" (handleSearch_finish (Raised e) (handleSearch_finish (Returned gA) d2))
    = Some (map render_source (sources gA)).
Proof.
  intros Hok H1 H2 Ht.
  destruct (start_resets _ _ _ H1) as (_ & _ & _ & Hp1).
  destruct (start_resets _ _ _ H2) as (_ & _ & _ & Hp2).
  assert (Hpres : forall id, In id search_ids -> present id d2 = true).
  { intros id Hin. rewrite Hp2, Hp1. by apply page_ok_present. }
  destruct (present_lookup "search-error" d2) as [ee Hee]; [apply Hpres; cbn; tauto|].
  destruct (present_lookup "search-results" d2) as [er Her]; [apply Hpres; cbn; tauto|].
  destruct (present_lookup "sources-list" d2) as [es Hes]; [apply Hpres; cbn; tauto|].
  unfold_view. rewrite Ht. cbn [orb]. rewrite message_nonempty.
  split; [|split].
  - page_simpl. unfold present. by rewrite Hee.
  - page_simpl. unfold present. by rewrite Her.
  - page_lookup. by rewrite Hes.
Qed.

(** C20. When the call answers with a text or at least one source, the
    page lists the sources in order, shows the summary (or the
    placeholder text), shows the results panel, and the share button's
    handler captures that answer. *)
Theorem handleSearch_success_renders `{JsonBuiltins} net d g :
  page_ok d -> truthy (JStr (js_trim (input_value d))) = true ->
  fst (callGeminiAPI net (js_trim (input_value d))) = Returned g ->
  truthy (text g) || bool_decide (0 < length (sources g))%nat = true ->
  children_of "sources-list" (fst (handleSearch net d)) = Some (map render_source (sources g)) /\
  text_of "summary-text" (fst (handleSearch net d)) =
    Some (if truthy (text g) then to_string (text g) else no_summary) /\
  onclick_of "share-button" (fst (handleSearch net d)) =
    Some (Some {| share_summary := text g; share_sources := sources g |}) /\
  vis "search-results" (fst (handleSearch net d)) = true.
Proof.
  intros Hok Hq Hc Hshow.
  destruct (handleSearch_start d) as [[q d1]|] eqn:Hs;
    [|unfold handleSearch_start in Hs; rewrite Hq in Hs; discriminate].
  pose proof Hs as Hs'. unfold handleSearch_start in Hs'. rewrite Hq in Hs'.
  injection Hs' as <- _.
  rewrite (handleSearch_started net d _ d1 Hs), Hc. cbn [fst].
  destruct (start_resets _ _ _ Hs) as (_ & _ & _ & Hp).
  assert (Hpres : forall id, In id search_ids -> present id d1 = true).
  { intros id Hin. rewrite Hp. by apply page_ok_present. }
  destruct (present_lookup "sources-list" d1) as [es Hes]; [apply Hpres; cbn; tauto|].
  destruct (present_lookup "summary-text" d1) as [et Het]; [apply Hpres; cbn; tauto|].
  destruct (present_lookup "share-button" d1) as [eb Heb]; [apply Hpres; cbn; tauto|].
  destruct (present_lookup "search-results" d1) as [er Her]; [apply Hpres; cbn; tauto|].
  unfold_view. rewrite Hshow.
  destruct (truthy (text g)); page_lookup; rewrite Hes, Het, Heb, Her; cbn; rewrite ?visible_remove_hidden; repeat split.
Qed.

End HandleSearch.

Module SearchExamples.

Import RetryLoop ProcessApiResponse CallGeminiAPI Dom SearchView HandleSearch NormalizerProofs.

Definition el (hidden : bool) : element :=
  {| classes := if hidden then {["hidden"]} else ∅; textContent := ""; innerHTML := "";
     children := []; onclick := None; value := ""; disabled := false;
     options := [] |}.

Definition input (q : string) : element :=
  {| classes := ∅; textContent := ""; innerHTML := ""; children := []; onclick := None;
     value := q; disabled := false;
     options := [] |}.

(** The page as the HTML serves it, with [q] typed in the search box. *)
Definition page (q : string) : dom :=
  list_to_map [("search-input", input q); ("loader", el true); ("search-error", el true);
               ("search-error p", el false); ("search-prompt", el false);
               ("search-results", el true); ("summary-text", el true);
               ("sources-list", el false); ("share-button", el true);
               ("copy-notification", el true)].

Lemma page_ok_page q : page_ok (page q).
Proof.
  unfold page_ok. apply (bool_decide_unpack _). vm_compute. reflexivity.
Qed.

Definition answer (status_code : Z) (v : jsval) : fetch_outcome :=
  Responded {| status := status_code; statusText := "OK"; body := JsonImpl.stringify v |}.

Definition empty_answer : jsval :=
  JObj [("candidates", JArr [JObj [("content", JObj [("parts", JArr [JObj [("text", JStr "")]])])]])].

Lemma handleSearch_blank_query_witness :
  handleSearch (fun _ => answer 200 empty_answer) (page "  ") = (page "  ", []).
Proof. apply handleSearch_blank_query. reflexivity. Defined.

Lemma handleSearch_exclusive_witness :
  vis "loader" (fst (handleSearch (fun _ => answer 429 (JObj [])) (page "phishing"))) = false /\
  vis "search-error" (fst (handleSearch (fun _ => answer 429 (JObj [])) (page "phishing"))) =
    negb (vis "search-results" (fst (handleSearch (fun _ => answer 429 (JObj [])) (page "phishing")))).
Proof. apply handleSearch_exclusive; [apply page_ok_page|reflexivity]. Defined.

Lemma handleSearch_no_results_witness :
  text_of "search-error p" (fst (handleSearch (fun _ => answer 200 empty_answer) (page "q")))
    = Some no_results /\
  vis "search-error" (fst (handleSearch (fun _ => answer 200 empty_answer) (page "q"))) = true.
Proof.
  apply (handleSearch_no_results _ _ {| text := JNull; sources := [] |});
    [apply page_ok_page|reflexivity|vm_compute; reflexivity|reflexivity|reflexivity].
Defined.

(** Every fetch answers a candidate blocked for safety. *)
Lemma handleSearch_rejected_answer_retried_witness :
  fetch_count (snd (handleSearch (fun _ => answer 200 (example_result "SAFETY")) (page "q"))) = 3%nat /\
  text_of "search-error p" (fst (handleSearch (fun _ => answer 200 (example_result "SAFETY")) (page "q")))
    = Some "Response blocked for safety or recitation reasons.".
Proof.
  apply (handleSearch_rejected_answer_retried _ _
           {| status := 200; statusText := "OK"; body := JsonImpl.stringify (example_result "SAFETY") |}
           (example_result "SAFETY") safety_blocked).
  - apply page_ok_page.
  - reflexivity.
  - intros; reflexivity.
  - reflexivity.
  - reflexivity.
  - vm_compute; reflexivity.
  - vm_compute; reflexivity.
  - reflexivity.
Defined.

Definition answer_A : grounded := {| text := JStr "t"; sources := [] |}.

Lemma interleaved_searches_stale_results_witness :
  let d1 := snd (default ("", page "q") (handleSearch_start (page "q"))) in
  let d2 := snd (default ("", d1) (handleSearch_start d1)) in
  vis "search-error" (handleSearch_finish (Raised safety_blocked) (handleSearch_finish (Returned answer_A) d2)) = true /\
  vis "search-results" (handleSearch_finish (Raised safety_blocked) (handleSearch_finish (Returned answer_A) d2)) = true /\
  children_of "sources-list" (handleSearch_finish (Raised safety_blocked) (handleSearch_finish (Returned answer_A) d2))
    = Some (map render_source (sources answer_A)).
Proof.
  cbv zeta.
  apply (interleaved_searches_stale_results (page "q") "q"
           (snd (default ("", page "q") (handleSearch_start (page "q")))) "q");
    [apply page_ok_page|reflexivity|reflexivity|reflexivity].
Defined.

Lemma handleSearch_success_renders_witness :
  children_of "sources-list" (fst (handleSearch (fun _ => answer 200 (example_result "STOP")) (page "q")))
    = Some [{| item_href := "a"; item_title := "A"; item_uri := "a" |}] /\
  text_of "summary-text" (fst (handleSearch (fun _ => answer 200 (example_result "STOP")) (page "q")))
    = Some "summary" /\
  onclick_of "share-button" (fst (handleSearch (fun _ => answer 200 (example_result "STOP")) (page "q")))
    = Some (Some {| share_summary := JStr "summary";
                    share_sources := [{| uri := JStr "a"; title := JStr "A" |}] |}) /\
  vis "search-results" (fst (handleSearch (fun _ => answer 200 (example_result "STOP")) (page "q"))) = true.
Proof.
  apply (handleSearch_success_renders _ _
           {| text := JStr "summary"; sources := [{| uri := JStr "a"; title := JStr "A" |}] |});
    [apply page_ok_page|reflexivity|vm_compute; reflexivity|reflexivity].
Defined.

End SearchExamples.
