(* ===== verification/Share.v ===== *)
(** * Share: [shareResults] and [copyToClipboard]

    [displayResults] installs on the share button a handler that calls
    [shareResults(summary, sources, searchInput.value)] (lines 280-282):
    the summary and the sources of the answer it rendered, and the text of
    the search box at the time of the click.  [shareResults] (lines
    288-308) builds a title, a snippet of the summary (its first 200 UTF-16
    code units) and a full text
    report, and hands the snippet to [navigator.share] when the browser
    has it, and the report to [copyToClipboard] (lines 311-328) otherwise,
    which runs [document.execCommand('copy')], shows the "copied"
    notification and hides it 2000 ms later.

    [Module ShareResults] models the browser by what the code asks of it
    (whether [navigator.share] exists, [window.location.href], what
    [execCommand('copy')] does), the effects of sharing as a value, and
    the notification and its timer on the clock of [Timers]. *)

From S2P Require Import Prelude JsValue Json Executor Normalizer Dom Factors Timers Research.
From stdpp Require Import gmap pretty.
From Stdlib Require Import Ascii.

Module ShareResults.

Import ProcessApiResponse Dom Timers CallGeminiAPI HandleSearch.

Record browser := {
  has_share : bool;          (* [navigator.share] is defined *)
  href : string;             (* [window.location.href] *)
  exec_copy : option bool    (* [execCommand('copy')] returns this, or throws *)
}.

Inductive share_effect :=
| NativeShare (title text url : string)
| CopyAttempt (text : string) (copied : bool).

Definition nl : string := String "010"%char EmptyString.

(** [`Research: ${query}`] *)
Definition shareTitle (query : string) : string := "Research: " +s+ query.

(** Line 291. *)
Definition summarySnippet (summary : jsval) : completion string :=
  if truthy summary then
    match summary with
    | JStr s => Normal (js_prefix 200 s +s+ "...")
    | _ => Throw (TypeError "summary.substring is not a function")
    end
  else Normal "Check out this research".

(** [`[Source ${i+1}] ${s.title}: ${s.uri}`] *)
Definition source_line (i : nat) (s : source) : string :=
  "[Source " +s+ pretty (S i) +s+ "] " +s+ to_string (title s) +s+ ": " +s+ to_string (uri s).

Definition sourcesText (sources : list source) : string := join_with nl (imap source_line sources).

(** Line 294. *)
Definition fullTextReport (query : string) (summary : jsval) (sources : list source)
    (shareURL : string) : string :=
  "Research on: " +s+ dq +s+ query +s+ dq +s+ nl +s+ nl +s+
  "Research Summary:" +s+ nl +s+ to_string (js_or summary (JStr "N/A")) +s+ nl +s+ nl +s+
  "Grounded Sources:" +s+ nl +s+ sourcesText sources +s+ nl +s+ nl +s+
  "Found via Cybersecurity Factor Database: " +s+ shareURL.

(** Lines 311-328: the [textarea] is added and removed again; the
    notification is shown unless [execCommand] throws. *)
Definition copyToClipboard (b : browser) (text : string) (u : ui) : ui * bool :=
  match exec_copy b with
  | None => (u, false)
  | Some ok =>
      (setTimeout 2000 HideCopyNotification (with_page (remove_class "copy-notification" "hidden") u), ok)
  end.

(** Lines 288-308.  The template [`${summarySnippet}\n\More:`] reads
    [\M] as [M]. *)
Definition shareResults (b : browser) (summary : jsval) (sources : list source) (query : string)
    (u : ui) : completion (share_effect * ui) :=
  summarySnippet summary ≫= fun snippet =>
  let fullText := fullTextReport query summary sources (href b) in
  if has_share b then mret (NativeShare (shareTitle query) (snippet +s+ nl +s+ "More:") (href b), u)
  else let '(u', ok) := copyToClipboard b fullText u in mret (CopyAttempt fullText ok, u').

(** A click on the share button: its [onclick], if any (lines 280-282). *)
Definition share_click (b : browser) (u : ui) : completion (option (share_effect * ui)) :=
  match onclick_of "share-button" (page u) with
  | Some (Some c) => Some <$> shareResults b (share_summary c) (share_sources c) (input_value (page u)) u
  | _ => Normal None
  end.

(** The user types [q] in the search box. *)
Definition type_query (q : string) (d : dom) : dom := set_value "search-input" q d.

End ShareResults.

Module ShareProofs.

Import ProcessApiResponse Dom Timers TimersProofs CallGeminiAPI HandleSearch ShareResults.

Lemma input_value_type_query q d :
  present "search-input" d = true -> input_value (type_query q d) = q.
Proof.
  intros Hp. unfold input_value, type_query. by rewrite value_set_value_same.
Qed.

Lemma onclick_type_query q d : onclick_of "share-button" (type_query q d) = onclick_of "share-button" d.
Proof. unfold onclick_of, type_query, set_value. rewrite lookup_alter_string. cbn. done. Qed.

Lemma shareResults_copy b summary sources q u s :
  has_share b = false -> summarySnippet summary = Normal s ->
  shareResults b summary sources q u =
    Normal (CopyAttempt (fullTextReport q summary sources (href b)) (default false (exec_copy b)),
            fst (copyToClipboard b (fullTextReport q summary sources (href b)) u)).
Proof.
  intros Hs Hsn. unfold shareResults. rewrite Hsn. jsimpl. rewrite Hs.
  unfold copyToClipboard. by destruct (exec_copy b).
Qed.

(** C35. The report copied by the share button names as the query the
    text in the search box when the button is clicked, not the query the
    rendered answer was searched for: text typed after the search ends up
    in the report of the earlier answer. *)
Theorem share_report_uses_current_input b u c q s :
  onclick_of "share-button" (page u) = Some (Some c) -> present "search-input" (page u) = true ->
  has_share b = false -> summarySnippet (share_summary c) = Normal s ->
  exists ok u',
    share_click b (with_page (type_query q) u) =
      Normal (Some (CopyAttempt (fullTextReport q (share_summary c) (share_sources c) (href b)) ok, u')).
Proof.
  intros Hc Hp Hs Hsn. unfold share_click. cbn [with_page page].
  rewrite onclick_type_query, Hc, input_value_type_query by done.
  rewrite (shareResults_copy _ _ _ _ _ s) by done. eauto.
Qed.


(** C36. Without [navigator.share], when [execCommand('copy')] returns
    [false] (nothing copied), the "copied" notification is still shown,
    and it is hidden again 2000 ms later. *)
Theorem copy_notification_despite_failure b summary sources q u s :
  has_share b = false -> exec_copy b = Some false -> summarySnippet summary = Normal s ->
  present "copy-notification" (page u) = true ->
  exists u',
    shareResults b summary sources q u = Normal (CopyAttempt (fullTextReport q summary sources (href b)) false, u') /\
    vis "copy-notification" (page u') = true /\
    vis "copy-notification" (page (advance 2000 u')) = false.
Proof.
  intros Hs He Hsn Hp. rewrite (shareResults_copy _ _ _ _ _ s), He by done.
  eexists. split; [done|]. unfold copyToClipboard. rewrite He. cbn [fst].
  split; [cbn [setTimeout with_page page]; by page_simpl|].
  apply (run_all_hide_notification _ _ (now u + 2000)%Z).
  - cbn [setTimeout with_page page]. by page_simpl.
  - apply advance_runs; cbn [setTimeout with_page page pending now fst]; [|lia].
    apply elem_of_app. right. by apply list_elem_of_singleton.
Qed.

End ShareProofs.

Module ShareExamples.

Import RetryLoop ProcessApiResponse NormalizerProofs Dom HandleSearch SearchExamples Timers ShareResults ShareProofs.

(** A desktop browser without [navigator.share] whose copy fails. *)
Definition desktop : browser := {| has_share := false; href := "https://example.org/"; exec_copy := Some false |}.
Definition phone : browser := {| has_share := true; href := "https://example.org/"; exec_copy := Some true |}.

(** The page after a search of "q" answered with the summary "summary"
    and one source. *)
Definition after_search : ui :=
  {| page := fst (handleSearch (fun _ => answer 200 (example_result "STOP")) (Research.SearchExamples.page "q"));
     now := 0; pending := [] |}.

Definition summary_closure : share_closure :=
  {| share_summary := JStr "summary"; share_sources := [{| uri := JStr "a"; title := JStr "A" |}] |}.

Lemma share_report_uses_current_input_witness :
  exists ok u',
    share_click desktop (with_page (type_query "other") after_search) =
      Normal (Some (CopyAttempt (fullTextReport "other" (JStr "summary")
                                  [{| uri := JStr "a"; title := JStr "A" |}] "https://example.org/") ok, u')).
Proof.
  apply (share_report_uses_current_input desktop after_search summary_closure "other" "summary...").
  - vm_compute. reflexivity.
  - vm_compute. reflexivity.
  - reflexivity.
  - reflexivity.
Defined.


Lemma copy_notification_despite_failure_witness :
  exists u',
    shareResults desktop (JStr "summary") [] "q" after_search =
      Normal (CopyAttempt (fullTextReport "q" (JStr "summary") [] "https://example.org/") false, u') /\
    vis "copy-notification" (page u') = true /\
    vis "copy-notification" (page (advance 2000 u')) = false.
Proof.
  apply (copy_notification_despite_failure desktop (JStr "summary") [] "q" after_search "summary...").
  - reflexivity.
  - reflexivity.
  - reflexivity.
  - vm_compute. reflexivity.
Defined.

End ShareExamples.
