(* ===== verification/Details.v ===== *)
(** * Details: [callGeminiForDetails] and [handleLearnMore]

    [callGeminiForDetails] (src/index.js, lines 439-523) asks for a JSON
    object [{definition, example, defense_tips}] with a response schema,
    runs the same retry loop as [callGeminiAPI] (modelled once in
    [Executor]) and, inside the loop's [try] block, parses the text of the
    first candidate with [JSON.parse].  [handleLearnMore] (lines 405-436)
    opens the modal ([openModal], lines 377-393), awaits the call, and
    writes the definition, the example and the defence tips into the
    modal's [innerHTML], or an error into [#modal-error].

    [Module CallGeminiForDetails] holds the prompts, the schema, the
    payload, the processing of the parsed body ([parse_candidate]) and the
    call.  [Module HandleLearnMore] models the modal on the page of [Dom]
    and splits the handler at its [await] like [handleSearch].  The
    timers of [openModal] and [closeModal] (the fade in after 10 ms, the
    [hidden] class after 250 ms) are added in [Modal], on the clock of
    [Timers]. *)

From S2P Require Import Prelude JsValue Json Executor Normalizer Dom.
From stdpp Require Import gmap.
From Stdlib Require Import Ascii QArith_base.

Module CallGeminiForDetails.

Import RetryLoop.

Definition dq : string := String "034"%char EmptyString.

Definition apiUrl : string :=
  "https://generativelanguage.googleapis.com/v1beta/models/gemini-2.5-flash-preview-09-2025:generateContent?key=".

(** Lines 444-447. *)
Definition systemPrompt : string :=
  "You are a cybersecurity training expert. 
            You provide clear, concise, and helpful information.
            The user will provide a psychological factor.
            You MUST respond ONLY with a JSON object matching the requested schema.".

(** Lines 450-453: the factor name is interpolated between quotes. *)
Definition userPrompt (factorName : string) : string :=
  "For the social engineering principle " +s+ dq +s+
  "" +s+ factorName +s+
  "" +s+ dq +s+
  ", please provide:
            1.  A brief 'definition' (1-2 sentences).
            2.  A realistic 'example' attack scenario (as a short paragraph, email, or script).
            3.  A list of 3-5 scannable 'defense_tips' for an end-user.".

(** Lines 456-467. *)
Definition schema : jsval :=
  JObj [("type", JStr "OBJECT");
        ("properties",
          JObj [("definition", JObj [("type", JStr "STRING")]);
                ("example", JObj [("type", JStr "STRING")]);
                ("defense_tips", JObj [("type", JStr "ARRAY"); ("items", JObj [("type", JStr "STRING")])])]);
        ("required", JArr [JStr "definition"; JStr "example"; JStr "defense_tips"])].

(** Lines 470-482; [temperature: 0.5]. *)
Definition payload (factorName : string) : jsval :=
  JObj [("contents", JArr [JObj [("role", JStr "user");
                                 ("parts", JArr [JObj [("text", JStr (userPrompt factorName))]])]]);
        ("systemInstruction", JObj [("parts", JArr [JObj [("text", JStr systemPrompt)]])]);
        ("generationConfig", JObj [("responseMimeType", JStr "application/json");
                                   ("responseSchema", schema);
                                   ("temperature", JNum (Qmake 1 2))])].

Definition invalid_details : exn := Error "Invalid response structure from generative API.".

Section Call.

Context `{JsonBuiltins}.

Definition request_of (factorName : string) : request :=
  {| req_url := apiUrl; req_method := "POST"; req_content_type := "application/json";
     req_body := json_stringify (payload factorName) |}.

(** Lines 508-513: [candidate && candidate.content?.parts?.[0]?.text],
    then [JSON.parse(candidate.content.parts[0].text)]. *)
Definition parse_candidate (result : jsval) : completion jsval :=
  cs ← get result "candidates";
  candidate ← oget cs "0";
  if negb (truthy candidate) then Throw invalid_details
  else
    c ← get candidate "content";
    p ← oget c "parts";
    x ← oget p "0";
    t ← oget x "text";
    if negb (truthy t) then Throw invalid_details
    else
      c' ← get candidate "content";
      p' ← get c' "parts";
      x' ← get p' "0";
      t' ← get x' "text";
      json_parse (to_string t').

(** The call: the loop of lines 485-522 with [parse_candidate]. *)
Definition callGeminiForDetails (net : nat -> fetch_outcome) (factorName : string)
  : loop_result jsval * loop_state :=
  run (request_of factorName) parse_candidate net.

End Call.

End CallGeminiForDetails.

Module HandleLearnMore.

Import RetryLoop CallGeminiForDetails Dom.

(** [selectFactor.value] *)
Definition selected (d : dom) : string := default "" (value <$> d !! "select-factor").

(** [openModal] (lines 377-393), without its animation timer. *)
Definition openModal (d : dom) : dom :=
  let factorName := selected d in
  if String.eqb factorName "default" then d
  else
    remove_class "factor-modal" "hidden"
      (add_class "modal-loader" "flex"
         (remove_class "modal-loader" "hidden"
            (add_class "modal-error" "hidden"
               (set_html "modal-content-area" "" (set_text "modal-title" factorName d))))).

Definition html_part0 : string :=
  "
                    <h4 class=" +s+ dq +s+
  "text-xl font-bold text-slate-800 mb-2" +s+ dq +s+
  ">Definition</h4>
                    <p class=" +s+ dq +s+
  "text-slate-700 mb-5" +s+ dq +s+
  ">".
Definition html_part1 : string :=
  "</p>
                    
                    <h4 class=" +s+ dq +s+
  "text-xl font-bold text-slate-800 mb-2" +s+ dq +s+
  ">Example Attack Scenario</h4>
                    <pre class=" +s+ dq +s+
  "bg-slate-100 p-4 rounded-lg text-slate-800 whitespace-pre-wrap font-sans mb-5" +s+ dq +s+
  ">".
Definition html_part2 : string :=
  "</pre>
                    
                    <h4 class=" +s+ dq +s+
  "text-xl font-bold text-slate-800 mb-2" +s+ dq +s+
  ">Defense Tips</h4>
                    <ul class=" +s+ dq +s+
  "list-disc list-inside text-slate-700 space-y-2" +s+ dq +s+
  ">
                        ".
Definition html_part3 : string :=
  "
                    </ul>
                ".

(** [tip => `<li>${tip}</li>`] *)
Definition tip_item (tip : jsval) : completion string :=
  mret ("<li>" +s+ to_string tip +s+ "</li>").

(** The template literal of lines 414-425, evaluated left to right. *)
Definition details_html (details : jsval) : completion string :=
  definition ← get details "definition";
  example ← get details "example";
  tips ← get details "defense_tips";
  items ← js_map "details.defense_tips" tips tip_item;
  mret (html_part0 +s+ to_string definition +s+ html_part1 +s+ to_string example +s+
        html_part2 +s+ String.concat "" items +s+ html_part3).

Definition insights_error (e : exn) : string := "Failed to generate insights: " +s+ exn_message e.

(** The [catch] block (lines 428-431). *)
Definition show_modal_error (e : exn) (d : dom) : dom :=
  remove_class "modal-error" "hidden" (set_text "modal-error" (insights_error e) d).

(** Lines 411-435 after the [await]; a fall-through of the loop would
    leave [details] [undefined]. *)
Definition render_details (details : jsval) (d : dom) : dom :=
  match details_html details with
  | Normal html => set_html "modal-content-area" html d
  | Throw e => show_modal_error e d
  end.

Definition handleLearnMore_finish (r : loop_result jsval) (d : dom) : dom :=
  let d1 :=
    match r with
    | Returned details => render_details details d
    | Raised e => show_modal_error e d
    | FellThrough | OutOfFuel => render_details JUndef d
    end in
  remove_class "modal-loader" "flex" (add_class "modal-loader" "hidden" d1).

(** The ids the handler writes; the page declares them all. *)
Definition modal_ids : list string :=
  ["select-factor"; "factor-modal"; "modal-title"; "modal-content-area"; "modal-loader"; "modal-error"].

Definition modal_ok (d : dom) : Prop := Forall (fun id => is_Some (d !! id)) modal_ids.

(** [handleLearnMore] (lines 405-436): the page after it and the trace of
    the call. *)
Definition handleLearnMore `{JsonBuiltins} (net : nat -> fetch_outcome) (d : dom) : dom * list event :=
  let d1 := openModal d in
  let factorName := selected d1 in
  let '(r, st) := callGeminiForDetails net factorName in
  (handleLearnMore_finish r d1, trace st).

End HandleLearnMore.

Module DetailsProofs.

Import RetryLoop CallGeminiForDetails HandleLearnMore Dom.

(** The answer of the service contract: one candidate whose first part
    holds the text [t]; [extra] are other fields of the candidate, such as
    a finish reason. *)
Definition text_answer (extra : list (string * jsval)) (t : string) : jsval :=
  JObj [("candidates",
         JArr [JObj (extra ++ [("content", JObj [("parts", JArr [JObj [("text", JStr t)]])])])])].

Lemma assoc_last_snoc k v fs : assoc_last k (fs ++ [(k, v)]) = Some v.
Proof.
  induction fs as [|[k' w] fs IH]; cbn.
  - by rewrite String.eqb_refl.
  - by rewrite IH.
Qed.

Lemma truthy_nonempty t : t <> "" -> truthy (JStr t) = true.
Proof. intros Ht. cbn. destruct (String.eqb_spec t ""); [done|]. done. Qed.

(** The text of the first candidate is parsed, whatever the other fields
    of the candidate. *)
Lemma parse_candidate_text_answer `{JsonBuiltins} extra t :
  t <> "" -> parse_candidate (text_answer extra t) = json_parse t.
Proof.
  intros Ht. unfold parse_candidate, text_answer. jsimpl.
  cbn -[json_parse]. rewrite assoc_last_snoc. cbn -[json_parse].
  destruct (String.eqb_spec t "") as [E|_]; [contradiction|].
  cbn -[json_parse]. reflexivity.
Qed.

Lemma modal_ok_present d id : modal_ok d -> In id modal_ids -> present id d = true.
Proof.
  intros Hok Hin. unfold modal_ok in Hok. rewrite Forall_forall in Hok.
  unfold present. destruct (Hok id) as [e ->]; [by apply list_elem_of_In|done].
Qed.

Lemma openModal_present d id : present id (openModal d) = present id d.
Proof. unfold openModal. destruct (String.eqb _ _); [done|]. by page_simpl. Qed.

Lemma selected_openModal d : selected (openModal d) = selected d.
Proof.
  unfold selected, openModal. destruct (String.eqb (selected d) "default"); [done|].
  unfold remove_class, add_class, set_html, set_text. rewrite !lookup_alter_string. cbn.
  by destruct (d !! "select-factor").
Qed.

Lemma handleLearnMore_unfold `{JsonBuiltins} net d :
  handleLearnMore net d =
    (handleLearnMore_finish (fst (callGeminiForDetails net (selected d))) (openModal d),
     trace (snd (callGeminiForDetails net (selected d)))).
Proof.
  unfold handleLearnMore. rewrite selected_openModal.
  by destruct (callGeminiForDetails net (selected d)).
Qed.

Lemma outcome_text_answer `{JsonBuiltins} r extra t :
  is_transient_status (status r) = false -> response_ok r = true ->
  json_parse (body r) = Normal (text_answer extra t) -> t <> "" ->
  try_attempt parse_candidate (Responded r) = json_parse t.
Proof.
  intros Ht Hok Hp Hne. unfold try_attempt. rewrite Ht, Hok, Hp. cbn.
  by apply parse_candidate_text_answer.
Qed.

(** C21. The details call does not look at the finish reason: a
    candidate whose text is valid JSON is returned after one fetch even
    when it was stopped for SAFETY or RECITATION, where the specification
    reports a Blocked failure. *)
Theorem details_accepts_blocked_candidate `{JsonBuiltins} net factor r reason t v :
  net 0%nat = Responded r -> is_transient_status (status r) = false -> response_ok r = true ->
  json_parse (body r) = Normal (text_answer [("finishReason", JStr reason)] t) -> t <> "" ->
  json_parse t = Normal v ->
  fst (callGeminiForDetails net factor) = Returned v /\
  fetch_count (trace (snd (callGeminiForDetails net factor))) = 1%nat.
Proof.
  intros Hn Ht Hok Hp Hne Hv. apply run_first_normal.
  unfold outcome. rewrite Hn. by rewrite (outcome_text_answer r [("finishReason", JStr reason)] t).
Qed.

(** C22. When the first answer's text parses to a value whose template
    evaluates, the modal shows that HTML after one fetch and the loader is
    hidden. *)
Theorem handleLearnMore_renders `{JsonBuiltins} net d r extra t v html :
  modal_ok d -> selected d <> "default" ->
  net 0%nat = Responded r -> is_transient_status (status r) = false -> response_ok r = true ->
  json_parse (body r) = Normal (text_answer extra t) -> t <> "" ->
  json_parse t = Normal v -> details_html v = Normal html ->
  html_of "modal-content-area" (fst (handleLearnMore net d)) = Some html /\
  fetch_count (snd (handleLearnMore net d)) = 1%nat /\
  vis "modal-loader" (fst (handleLearnMore net d)) = false.
Proof.
  intros Hok Hsel Hn Ht Hrok Hp Hne Hv Hh.
  destruct (run_first_normal (request_of (selected d)) parse_candidate net v) as (Hr & Hf).
  { unfold outcome. rewrite Hn. by rewrite (outcome_text_answer r extra t). }
  rewrite handleLearnMore_unfold. cbn [fst snd]. unfold callGeminiForDetails. rewrite Hr, Hf.
  split; [|split; [done|]].
  - destruct (present_lookup "modal-content-area" (openModal d)) as [e He];
      [rewrite openModal_present; apply modal_ok_present; cbn; tauto|].
    unfold handleLearnMore_finish, render_details. rewrite Hh. page_lookup. by rewrite He.
  - unfold handleLearnMore_finish. by page_simpl.
Qed.

(** C23. A reply whose text is not valid JSON is fetched three times (the
    [SyntaxError] of [JSON.parse] is caught by the retry loop), then its
    message is shown in the modal; the specification reports a
    MalformedResponse without retrying. *)
Theorem handleLearnMore_malformed_json `{JsonBuiltins} net d r extra t e :
  modal_ok d ->
  (forall i, net i = Responded r) -> is_transient_status (status r) = false -> response_ok r = true ->
  json_parse (body r) = Normal (text_answer extra t) -> t <> "" ->
  json_parse t = Throw e ->
  fetch_count (snd (handleLearnMore net d)) = 3%nat /\
  text_of "modal-error" (fst (handleLearnMore net d)) = Some (insights_error e) /\
  vis "modal-error" (fst (handleLearnMore net d)) = true.
Proof.
  intros Hok Hn Ht Hrok Hp Hne He.
  destruct (run_all_throw (request_of (selected d)) parse_candidate net (fun _ => e)) as (Hr & Hf).
  { intros j _. unfold outcome. rewrite Hn. by rewrite (outcome_text_answer r extra t). }
  rewrite handleLearnMore_unfold. cbn [fst snd]. unfold callGeminiForDetails. rewrite Hr, Hf.
  destruct (present_lookup "modal-error" (openModal d)) as [el Hel];
    [rewrite openModal_present; apply modal_ok_present; cbn; tauto|].
  split; [done|]. unfold handleLearnMore_finish, show_modal_error. split.
  - page_lookup. by rewrite Hel.
  - page_simpl. by rewrite openModal_present, (modal_ok_present d); [|done|cbn; tauto].
Qed.

Lemma tips_html tips :
  js_map "details.defense_tips" (JArr tips) tip_item =
    Normal (map (fun tip => "<li>" +s+ to_string tip +s+ "</li>") tips).
Proof. cbn [js_map]. by apply mapM_Normal. Qed.

(** C24. A reply without [example] is not rejected: the modal shows the
    text "undefined" in the example's place (the specification makes a
    missing field a MalformedResponse). *)
Theorem details_html_missing_example def tips :
  details_html (JObj [("definition", def); ("defense_tips", JArr tips)]) =
    Normal (html_part0 +s+ to_string def +s+ html_part1 +s+ "undefined" +s+ html_part2 +s+
            String.concat "" (map (fun tip => "<li>" +s+ to_string tip +s+ "</li>") tips) +s+
            html_part3).
Proof. unfold details_html. jsimpl. cbn -[js_map]. by rewrite tips_html. Qed.

(** C25. The definition of the reply is inserted into the modal's
    [innerHTML] as it is, without escaping: markup in the model's answer
    becomes markup of the page. *)
Theorem details_html_unescaped s ex tips h :
  details_html (JObj [("definition", JStr s); ("example", ex); ("defense_tips", JArr tips)]) = Normal h ->
  exists pre post, h = pre +s+ s +s+ post.
Proof.
  unfold details_html. jsimpl. cbn -[js_map]. rewrite tips_html. cbn.
  intros [= <-]. by exists html_part0, (html_part1 +s+ to_string ex +s+ html_part2 +s+
    String.concat "" (map (fun tip => "<li>" +s+ to_string tip +s+ "</li>") tips) +s+ html_part3).
Qed.

(** C26. With "default" selected, [openModal] returns early and the modal
    stays as it was, but [handleLearnMore] goes on and sends a request for
    the factor "default". *)
Theorem learn_more_default_still_fetches `{JsonBuiltins} net d :
  selected d = "default" ->
  vis "factor-modal" (fst (handleLearnMore net d)) = vis "factor-modal" d /\
  head (snd (handleLearnMore net d)) = Some (EvFetch (request_of "default")).
Proof.
  intros Hsel. rewrite handleLearnMore_unfold. cbn [fst snd].
  assert (Hm : openModal d = d) by (unfold openModal; by rewrite Hsel).
  split.
  - rewrite Hm. unfold handleLearnMore_finish, render_details, show_modal_error.
    destruct (fst _) as [v| | |]; [destruct (details_html v)| |destruct (details_html JUndef)
      |destruct (details_html JUndef)]; by page_simpl.
  - rewrite Hsel. unfold callGeminiForDetails.
    destruct (run_reference (request_of "default") parse_candidate net) as (_ & _ & Ht).
    pose proof (spec_result_bounds parse_candidate net) as Hb. rewrite Ht.
    destruct (snd (spec_result parse_candidate net)) as [|n]; [lia|]. done.
Qed.

(** C27. Whatever the network answers, the modal's loader is hidden when
    [handleLearnMore] ends (its [finally] block). *)
Theorem handleLearnMore_loader_hidden `{JsonBuiltins} net d :
  vis "modal-loader" (fst (handleLearnMore net d)) = false.
Proof. rewrite handleLearnMore_unfold. cbn [fst]. unfold handleLearnMore_finish. by page_simpl. Qed.

End DetailsProofs.

Module DetailsExamples.

Import RetryLoop CallGeminiForDetails HandleLearnMore Dom DetailsProofs.

Definition node (hidden : bool) (v : string) : element :=
  {| classes := if hidden then {["hidden"]} else ∅; textContent := ""; innerHTML := "";
     children := []; onclick := None; value := v; disabled := false;
     options := [] |}.

(** The modal as the HTML serves it, with [factor] selected. *)
Definition modal_page (factor : string) : dom :=
  list_to_map [("select-factor", node false factor); ("factor-modal", node true "");
               ("modal-title", node false ""); ("modal-content-area", node false "");
               ("modal-loader", node true ""); ("modal-error", node true "")].

Lemma modal_ok_page factor : modal_ok (modal_page factor).
Proof. unfold modal_ok. apply (bool_decide_unpack _). vm_compute. reflexivity. Qed.

(** The reply of the specification's example. *)
Definition spec_reply : jsval :=
  JObj [("definition", JStr "d"); ("example", JStr "e"); ("defense_tips", JArr [JStr "t1"; JStr "t2"])].

Definition reply_response (extra : list (string * jsval)) (t : string) : response :=
  {| status := 200; statusText := "OK"; body := JsonImpl.stringify (text_answer extra t) |}.

Definition spec_html : string :=
  match details_html spec_reply with Normal h => h | Throw _ => "" end.

Lemma details_accepts_blocked_candidate_witness :
  fst (callGeminiForDetails
         (fun _ => Responded (reply_response [("finishReason", JStr "SAFETY")] (JsonImpl.stringify spec_reply)))
         "Urgency") = Returned spec_reply /\
  fetch_count (trace (snd (callGeminiForDetails
         (fun _ => Responded (reply_response [("finishReason", JStr "SAFETY")] (JsonImpl.stringify spec_reply)))
         "Urgency"))) = 1%nat.
Proof.
  apply (details_accepts_blocked_candidate _ _
           (reply_response [("finishReason", JStr "SAFETY")] (JsonImpl.stringify spec_reply))
           "SAFETY" (JsonImpl.stringify spec_reply)).
  - reflexivity.
  - reflexivity.
  - reflexivity.
  - vm_compute. reflexivity.
  - vm_compute. discriminate.
  - vm_compute. reflexivity.
Defined.

(** The specification's example: "Urgency" and a well-formed reply. *)
Lemma handleLearnMore_renders_witness :
  html_of "modal-content-area"
    (fst (handleLearnMore (fun _ => Responded (reply_response [] (JsonImpl.stringify spec_reply)))
                          (modal_page "Urgency"))) = Some spec_html /\
  fetch_count (snd (handleLearnMore (fun _ => Responded (reply_response [] (JsonImpl.stringify spec_reply)))
                                     (modal_page "Urgency"))) = 1%nat /\
  vis "modal-loader"
    (fst (handleLearnMore (fun _ => Responded (reply_response [] (JsonImpl.stringify spec_reply)))
                          (modal_page "Urgency"))) = false.
Proof.
  apply (handleLearnMore_renders _ _ (reply_response [] (JsonImpl.stringify spec_reply)) []
           (JsonImpl.stringify spec_reply) spec_reply).
  - apply modal_ok_page.
  - vm_compute. discriminate.
  - reflexivity.
  - reflexivity.
  - reflexivity.
  - vm_compute. reflexivity.
  - vm_compute. discriminate.
  - vm_compute. reflexivity.
  - vm_compute. reflexivity.
Defined.

Lemma handleLearnMore_malformed_json_witness :
  fetch_count (snd (handleLearnMore (fun _ => Responded (reply_response [] "not json"))
                                     (modal_page "Urgency"))) = 3%nat /\
  text_of "modal-error" (fst (handleLearnMore (fun _ => Responded (reply_response [] "not json"))
                                              (modal_page "Urgency")))
    = Some (insights_error JsonImpl.syntax_error) /\
  vis "modal-error" (fst (handleLearnMore (fun _ => Responded (reply_response [] "not json"))
                                          (modal_page "Urgency"))) = true.
Proof.
  apply (handleLearnMore_malformed_json _ _ (reply_response [] "not json") [] "not json").
  - apply modal_ok_page.
  - intros; reflexivity.
  - reflexivity.
  - reflexivity.
  - vm_compute. reflexivity.
  - discriminate.
  - vm_compute. reflexivity.
Defined.

Lemma details_html_unescaped_witness :
  exists pre post,
    spec_html = pre +s+ "d" +s+ post.
Proof.
  apply (details_html_unescaped "d" (JStr "e") [JStr "t1"; JStr "t2"] spec_html).
  vm_compute. reflexivity.
Defined.

Lemma learn_more_default_still_fetches_witness :
  vis "factor-modal" (fst (handleLearnMore (fun _ => NetworkError (TypeError "Failed to fetch"))
                                           (modal_page "default")))
    = vis "factor-modal" (modal_page "default") /\
  head (snd (handleLearnMore (fun _ => NetworkError (TypeError "Failed to fetch")) (modal_page "default")))
    = Some (EvFetch (request_of "default")).
Proof. apply learn_more_default_still_fetches. reflexivity. Defined.

End DetailsExamples.
