(* ===== verification/Modal.v ===== *)
(** * Modal: opening and closing the factor modal, with its timers

    [openModal] (src/index.js, lines 377-393) shows the modal at once and
    fades it in 10 ms later; [closeModal] (lines 396-402) starts the fade
    out at once and adds [hidden] 250 ms later.  Neither cancels the timer
    of the other.  [Module ModalUi] replays a sequence of user events
    (closing the modal, clicking "Learn More", letting time pass, the
    answer of the details request arriving) on the clock of [Timers]; a
    click on "Learn More" runs [handleLearnMore] up to its [await], that
    is [openModal] (lines 405-406).  The theorems show that a modal
    reopened less than 250 ms after it was closed is hidden by the pending
    timer of the close, and that it stays open when reopened later. *)

From S2P Require Import Prelude JsValue Json Executor Dom Factors Timers Details.
From stdpp Require Import gmap.

Module ModalUi.

Import RetryLoop Dom Timers HandleLearnMore.

(** [openModal], with its [setTimeout] of lines 389-392. *)
Definition openModal_ui (u : ui) : ui :=
  if String.eqb (selected (page u)) "default" then u
  else setTimeout 10 RevealModal (with_page openModal u).

(** [closeModal], lines 396-402. *)
Definition closeModal_ui (u : ui) : ui :=
  setTimeout 250 HideModal
    (with_page (fun d => add_class modal_content "scale-95" (add_class "factor-modal" "opacity-0" d)) u).

Inductive ui_event :=
| CloseModal
| LearnMore
| Wait (t : Z)
| DetailsArrive (r : loop_result jsval).

Definition ui_step (e : ui_event) (u : ui) : ui :=
  match e with
  | CloseModal => closeModal_ui u
  | LearnMore => openModal_ui u
  | Wait t => advance t u
  | DetailsArrive r => with_page (handleLearnMore_finish r) u
  end.

Definition replay (es : list ui_event) (u : ui) : ui := foldl (fun u e => ui_step e u) u es.

End ModalUi.

Module ModalProofs.

Import RetryLoop Dom Timers TimersProofs HandleLearnMore DetailsProofs ModalUi.

Ltac ui_simpl := cbn [setTimeout with_page page now pending advance fst snd].

Lemma selected_run_all d l : selected (run_all d l) = selected d.
Proof. unfold selected. by rewrite value_run_all. Qed.

Lemma selected_close u : selected (page (closeModal_ui u)) = selected (page u).
Proof. unfold selected, closeModal_ui. ui_simpl. unfold add_class. by rewrite !value_alter_keep. Qed.

Lemma present_close id u : present id (page (closeModal_ui u)) = present id (page u).
Proof. unfold closeModal_ui. ui_simpl. by page_simpl. Qed.

Lemma close_pending u : ((now u + 250)%Z, HideModal) ∈ pending (closeModal_ui u).
Proof. unfold closeModal_ui. ui_simpl. apply elem_of_app. right. by apply list_elem_of_singleton. Qed.

Lemma open_ui_selected u :
  selected (page u) <> "default" ->
  openModal_ui u = setTimeout 10 RevealModal (with_page openModal u).
Proof. intros H. unfold openModal_ui. by apply String.eqb_neq in H as ->. Qed.

Lemma vis_openModal d :
  present "factor-modal" d = true -> selected d <> "default" -> vis "factor-modal" (openModal d) = true.
Proof.
  intros Hp Hs. unfold openModal. apply String.eqb_neq in Hs as ->. by page_simpl.
Qed.

(** C28. Closing the modal and clicking "Learn More" again less than
    250 ms later leaves the modal hidden once the close's timer has run:
    the timer of [closeModal] is not cancelled by [openModal]. *)
Theorem reopen_within_250_hidden u t t2 :
  present "factor-modal" (page u) = true -> selected (page u) <> "default" ->
  (0 <= t < 250)%Z -> (250 <= t + t2)%Z ->
  vis "factor-modal" (page (replay [CloseModal; Wait t; LearnMore; Wait t2] u)) = false.
Proof.
  intros Hp Hs Ht Ht2. cbn [replay foldl ui_step].
  set (u2 := advance t (closeModal_ui u)).
  assert (Hs2 : selected (page u2) <> "default") by (unfold u2; ui_simpl; by rewrite selected_run_all, selected_close).
  assert (Hin2 : ((now u + 250)%Z, HideModal) ∈ pending u2)
    by (apply advance_keeps; [apply close_pending|cbn; lia]).
  rewrite (open_ui_selected _ Hs2). cbn [advance page now pending setTimeout with_page].
  apply (run_all_hide_modal _ _ (now u + 250)%Z).
  - rewrite openModal_present. unfold u2; ui_simpl. by rewrite present_run_all, present_close.
  - apply advance_runs with (u := setTimeout 10 RevealModal (with_page openModal u2)).
    + cbn [pending setTimeout with_page]. apply elem_of_app. by left.
    + unfold u2, closeModal_ui. ui_simpl. lia.
Qed.

(** C29. With no hide pending, closing the modal and clicking "Learn
    More" at least 250 ms later leaves it open, however much time then
    passes. *)
Theorem reopen_after_250_visible u t t2 :
  present "factor-modal" (page u) = true -> selected (page u) <> "default" ->
  Forall (fun x => snd x <> HideModal) (pending u) -> (250 <= t)%Z ->
  vis "factor-modal" (page (replay [CloseModal; Wait t; LearnMore; Wait t2] u)) = true.
Proof.
  intros Hp Hs Hnone Ht. cbn [replay foldl ui_step].
  set (u2 := advance t (closeModal_ui u)).
  assert (Hs2 : selected (page u2) <> "default") by (unfold u2; ui_simpl; by rewrite selected_run_all, selected_close).
  assert (Hn2 : Forall (fun x => snd x <> HideModal) (pending u2)).
  { unfold u2, closeModal_ui; ui_simpl. rewrite List.filter_app. apply Forall_app. split.
    - apply Forall_forall. intros x Hx. apply list_elem_of_In, filter_In in Hx as [Hx _].
      apply list_elem_of_In in Hx. by eapply Forall_forall in Hnone.
    - cbn [List.filter]. unfold is_due. cbn [fst]. replace (now u + 250 <=? now u + t)%Z with true by cmp_lia. constructor. }
  rewrite (open_ui_selected _ Hs2). cbn [advance page now pending setTimeout with_page].
  rewrite run_all_modal_keep.
  - apply vis_openModal; [|done]. unfold u2; ui_simpl. by rewrite present_run_all, present_close.
  - apply due_Forall, Forall_app. split; [done|]. by repeat constructor.
Qed.

End ModalProofs.

Module ModalExamples.

Import Dom Timers HandleLearnMore DetailsExamples ModalUi ModalProofs.

(** The modal page of [DetailsExamples] with its [.modal-content] box, at
    time 0 with no timer pending. *)
Definition ui0 : ui :=
  {| page := <[modal_content := node false ""]> (modal_page "Urgency"); now := 0; pending := [] |}.

Lemma reopen_within_250_hidden_witness :
  vis "factor-modal" (page (replay [CloseModal; Wait 100; LearnMore; Wait 200] ui0)) = false.
Proof.
  apply reopen_within_250_hidden.
  - vm_compute. reflexivity.
  - vm_compute. discriminate.
  - lia.
  - lia.
Defined.

Lemma reopen_after_250_visible_witness :
  vis "factor-modal" (page (replay [CloseModal; Wait 300; LearnMore; Wait 50] ui0)) = true.
Proof.
  apply reopen_after_250_visible.
  - vm_compute. reflexivity.
  - vm_compute. discriminate.
  - constructor.
  - lia.
Defined.

End ModalExamples.
